(** * SignalProcessor: a fixed-capacity streaming statistics engine

    Shallow embedding of [Inc/SignalProcessor.hpp] (template class
    [SignalProcessor<T, N>]) and the properties of its ring buffer, moment
    accumulators, lazy min/max tracking, EMA filter and rate module.

    - [float] is IEEE-754 binary32, modelled by the Standard Library's
      executable specification [SpecFloat] at precision 24 and exponent
      bound 128, rounding to nearest even.
    - [uint16_t] and [uint32_t] are [Z] with the wrap-around written out.
    - The template parameter [T] is a type class [SampleType] that carries the
      conversions and comparisons the class body applies to a sample; two
      instances are given, [int16_t] and [float].
    - The object is a record; every member function is a function from the
      record to the record.
    - [int] has 32 bits, and every float operation is rounded on its own (no
      contraction of a product and a sum into one fused operation, no
      excess precision). *)

From Stdlib Require Import ZArith QArith Lia Lqa Bool.
From Stdlib Require Import Floats.SpecFloat.
From stdpp Require Import base list.

Local Open Scope Z_scope.

(* ===================================================================== *)
(** ** Machine integers *)
(* ===================================================================== *)

(** Reduction of a mathematical integer into [uint16_t] / [uint32_t]. *)
Definition u16 (z : Z) : Z := z mod 65536.
Definition u32 (z : Z) : Z := z mod 4294967296.

(** Two's complement reduction into [int16_t] / [int] (32 bits). *)
Definition wrap16 (z : Z) : Z := (z + 32768) mod 65536 - 32768.
Definition wrap32 (z : Z) : Z := (z + 2147483648) mod 4294967296 - 2147483648.

Definition INT_MIN : Z := -2147483648.
Definition INT_MAX : Z := 2147483647.

(* ===================================================================== *)
(** ** binary32 arithmetic *)
(* ===================================================================== *)

Module F32.

Definition prec : Z := 24.
Definition emax : Z := 128.

Definition f32 : Type := spec_float.

Definition add : f32 -> f32 -> f32 := SFadd prec emax.
Definition sub : f32 -> f32 -> f32 := SFsub prec emax.
Definition mul : f32 -> f32 -> f32 := SFmul prec emax.
Definition div : f32 -> f32 -> f32 := SFdiv prec emax.
Definition sqrt : f32 -> f32 := SFsqrt prec emax.
Definition opp : f32 -> f32 := SFopp.

(** The comparison operators [<], [>] and [==] of C++ on floats: all three
    are false as soon as one operand is a NaN. *)
Definition ltb (x y : f32) : bool :=
  match SFcompare x y with Some Lt => true | _ => false end.
Definition gtb (x y : f32) : bool :=
  match SFcompare x y with Some Gt => true | _ => false end.
Definition eqb (x y : f32) : bool :=
  match SFcompare x y with Some Eq => true | _ => false end.

(** [(float)z] for an integer [z]: the nearest binary32 value. *)
Definition of_Z (z : Z) : f32 := binary_normalize prec emax z 0 false.

(** Exact constants with their bit patterns spelled out:
    0.0f, 1.0f, 0.5f, 0.1f = 0x3DCCCCCD, 0.2f = 0x3E4CCCCD,
    0.001f = 0x3A83126F, 3.0f, 100.0f. *)
Definition zero : f32 := S754_zero false.
Definition one : f32 := S754_finite false 8388608 (-23).
Definition half : f32 := S754_finite false 8388608 (-24).
Definition c0_1 : f32 := S754_finite false 13421773 (-27).
Definition c0_2 : f32 := S754_finite false 13421773 (-26).
Definition c0_001 : f32 := S754_finite false 8589935 (-33).
Definition c100 : f32 := S754_finite false 13107200 (-17).

Definition is_nan (x : f32) : bool :=
  match x with S754_nan => true | _ => false end.

Definition is_finite (x : f32) : bool :=
  match x with S754_zero _ | S754_finite _ _ _ => true | _ => false end.

(** The integer part of a finite float, rounding toward zero. *)
Definition trunc (x : f32) : Z :=
  match x with
  | S754_finite s m e =>
      let a := Z.shiftl (Zpos m) e in if s then - a else a
  | _ => 0
  end.

(** [(int)x].  C++ leaves the conversion undefined when the truncated value
    does not fit in [int] (and for NaN and the infinities); the embedding
    takes the saturating result of the ARM [VCVT] instruction there (NaN
    gives 0).  No property below depends on that choice. *)
Definition to_int (x : f32) : Z :=
  match x with
  | S754_nan => 0
  | S754_infinity s => if s then INT_MIN else INT_MAX
  | _ => Z.max INT_MIN (Z.min INT_MAX (trunc x))
  end.

(** The rational number a finite float denotes (0 for the others). *)
Definition to_Q (x : f32) : Q :=
  match x with
  | S754_finite s m e =>
      let a := match e with
               | Z0 => inject_Z (Zpos m)
               | Zpos p => inject_Z (Zpos m * 2 ^ Zpos p)
               | Zneg p => Qmake (Zpos m) (2 ^ p)%positive
               end in
      if s then Qopp a else a
  | _ => 0%Q
  end.

End F32.

Abbreviation f32 := F32.f32.

(** The comparison of two finite floats of the same sign goes by exponent,
    then by mantissa. *)
Definition lex_compare (e1 : Z) (m1 : positive) (e2 : Z) (m2 : positive)
  : comparison :=
  match e1 ?= e2 with
  | Lt => Lt
  | Gt => Gt
  | Eq => Pos.compare_cont Eq m1 m2
  end.

(* ===================================================================== *)
(** ** The sample type [T] *)
(* ===================================================================== *)

(** What the class body does with a value of type [T].  Each field is one
    C++ expression of the header, at the types the usual arithmetic
    conversions give it. *)
Class SampleType (T : Type) := {
  T_zero : T;                       (* T x = 0                          *)
  T_ltb : T -> T -> bool;           (* a < b                            *)
  T_gtb : T -> T -> bool;           (* a > b                            *)
  T_eqb : T -> T -> bool;           (* a == b                           *)
  to_float : T -> f32;              (* (float)v                         *)
  of_int : Z -> T;                  (* lastValue_ = val, val an int     *)
  int_minus : Z -> T -> f32;        (* (float)((int)val - lastValue_)   *)
  minus_to_float : T -> T -> f32;   (* (float)(maxVal_ - minVal_)       *)
  exact_value : T -> Q              (* the number the sample denotes,
                                       used to state exactness only     *)
}.

(** [T = int16_t].  Operands are promoted to [int]; narrowing an [int] back
    to [int16_t] keeps the low 16 bits.  A difference of two [int]s that
    overflows is undefined in C++ and wraps here; it takes a truncated EMA
    outside the range of [int16_t] to get there. *)
Definition int16_t : Type := Z.

#[export] Instance int16_sample : SampleType int16_t := {|
  T_zero := 0;
  T_ltb := Z.ltb;
  T_gtb := Z.gtb;
  T_eqb := Z.eqb;
  to_float := F32.of_Z;
  of_int := wrap16;
  int_minus := fun i v => F32.of_Z (wrap32 (i - v));
  minus_to_float := fun a b => F32.of_Z (wrap32 (a - b));
  exact_value := inject_Z
|}.

(** [T = float].  An [int] operand is converted to [float] first. *)
Definition float : Type := f32.

#[export] Instance float_sample : SampleType float := {|
  T_zero := F32.zero;
  T_ltb := F32.ltb;
  T_gtb := F32.gtb;
  T_eqb := F32.eqb;
  to_float := fun v => v;
  of_int := F32.of_Z;
  int_minus := fun i v => F32.sub (F32.of_Z i) v;
  minus_to_float := F32.sub;
  exact_value := F32.to_Q
|}.

(* ===================================================================== *)
(** ** The object *)
(* ===================================================================== *)

(** The data members, in declaration order. *)
Record SignalProcessor {T : Type} := mkSignalProcessor {
  buffer_ : list T;
  count_ : Z;
  index_ : Z;
  sum_ : f32;
  sumSq_ : f32;
  minVal_ : T;
  maxVal_ : T;
  needRecalcMinMax_ : bool;
  ema_ : f32;
  lastValue_ : T;
  lastTimeMs_ : Z;
  derivativePeriodMs_ : Z;
  useEmaFilteredValueForDerivation_ : bool;
  derivative_ : f32;
  derivativeFiltered_ : f32;
  integrator_ : f32;
  lastIntegrandValue_ : f32;
  alphaEma_ : f32;
  alphaDerivFilter_ : f32;
  alphaLowpass_ : f32
}.
Arguments SignalProcessor : clear implicits.
Arguments mkSignalProcessor {T}.

Section Processor.

Context {T : Type} `{SampleType T}.

(** The template parameter [N], the capacity of the ring buffer.  The header
    asserts [N >= 2]; [N] is a [uint16_t], so [N <= 65535]. *)
Variable N : Z.

Local Abbreviation SP := (SignalProcessor T).

(** [buffer_[i]] and [buffer_[i] = v].  The array has exactly [N] cells and
    the class only indexes it below [N]; outside the list the read gives
    [T(0)] and the write does nothing. *)
Definition buf_at (b : list T) (i : Z) : T :=
  default T_zero (b !! Z.to_nat i).

Definition buf_set (b : list T) (i : Z) (v : T) : list T :=
  <[Z.to_nat i := v]> b.

(** *** Constructor

    The member initialiser list covers every member except [buffer_],
    [derivativePeriodMs_] and [useEmaFilteredValueForDerivation_]: those keep
    whatever the storage [mem] of the object held before construction. *)
Definition SignalProcessor_ctor (mem : SP) : SP :=
  {| buffer_ := buffer_ mem;
     count_ := 0;
     index_ := 0;
     sum_ := F32.zero;
     sumSq_ := F32.zero;
     minVal_ := T_zero;
     maxVal_ := T_zero;
     needRecalcMinMax_ := false;
     ema_ := F32.zero;
     lastValue_ := T_zero;
     lastTimeMs_ := 0;
     derivativePeriodMs_ := derivativePeriodMs_ mem;
     useEmaFilteredValueForDerivation_ := useEmaFilteredValueForDerivation_ mem;
     derivative_ := F32.zero;
     derivativeFiltered_ := F32.zero;
     integrator_ := F32.zero;
     lastIntegrandValue_ := F32.zero;
     alphaEma_ := F32.c0_1;
     alphaDerivFilter_ := F32.c0_2;
     alphaLowpass_ := F32.c0_1 |}.

(** *** Configuration *)

(** [(alpha < 0.0f) ? 0.0f : (alpha > 1.0f) ? 1.0f : alpha] *)
Definition clamp01 (alpha : f32) : f32 :=
  if F32.ltb alpha F32.zero then F32.zero
  else if F32.gtb alpha F32.one then F32.one
  else alpha.

Definition setEmaAlpha (alpha : f32) (s : SP) : SP :=
  {| buffer_ := buffer_ s; count_ := count_ s; index_ := index_ s;
     sum_ := sum_ s; sumSq_ := sumSq_ s;
     minVal_ := minVal_ s; maxVal_ := maxVal_ s;
     needRecalcMinMax_ := needRecalcMinMax_ s;
     ema_ := ema_ s;
     lastValue_ := lastValue_ s; lastTimeMs_ := lastTimeMs_ s;
     derivativePeriodMs_ := derivativePeriodMs_ s;
     useEmaFilteredValueForDerivation_ := useEmaFilteredValueForDerivation_ s;
     derivative_ := derivative_ s;
     derivativeFiltered_ := derivativeFiltered_ s;
     integrator_ := integrator_ s;
     lastIntegrandValue_ := lastIntegrandValue_ s;
     alphaEma_ := clamp01 alpha;
     alphaDerivFilter_ := alphaDerivFilter_ s;
     alphaLowpass_ := alphaLowpass_ s |}.

Definition setDerivativePeriodMs (period : Z) (s : SP) : SP :=
  {| buffer_ := buffer_ s; count_ := count_ s; index_ := index_ s;
     sum_ := sum_ s; sumSq_ := sumSq_ s;
     minVal_ := minVal_ s; maxVal_ := maxVal_ s;
     needRecalcMinMax_ := needRecalcMinMax_ s;
     ema_ := ema_ s;
     lastValue_ := lastValue_ s; lastTimeMs_ := lastTimeMs_ s;
     derivativePeriodMs_ := period;
     useEmaFilteredValueForDerivation_ := useEmaFilteredValueForDerivation_ s;
     derivative_ := derivative_ s;
     derivativeFiltered_ := derivativeFiltered_ s;
     integrator_ := integrator_ s;
     lastIntegrandValue_ := lastIntegrandValue_ s;
     alphaEma_ := alphaEma_ s;
     alphaDerivFilter_ := alphaDerivFilter_ s;
     alphaLowpass_ := alphaLowpass_ s |}.

Definition setIsEmaUseForDerivative (isEmaUse : bool) (s : SP) : SP :=
  {| buffer_ := buffer_ s; count_ := count_ s; index_ := index_ s;
     sum_ := sum_ s; sumSq_ := sumSq_ s;
     minVal_ := minVal_ s; maxVal_ := maxVal_ s;
     needRecalcMinMax_ := needRecalcMinMax_ s;
     ema_ := ema_ s;
     lastValue_ := lastValue_ s; lastTimeMs_ := lastTimeMs_ s;
     derivativePeriodMs_ := derivativePeriodMs_ s;
     useEmaFilteredValueForDerivation_ := isEmaUse;
     derivative_ := derivative_ s;
     derivativeFiltered_ := derivativeFiltered_ s;
     integrator_ := integrator_ s;
     lastIntegrandValue_ := lastIntegrandValue_ s;
     alphaEma_ := alphaEma_ s;
     alphaDerivFilter_ := alphaDerivFilter_ s;
     alphaLowpass_ := alphaLowpass_ s |}.

Definition setDerivativeFilterAlpha (alpha : f32) (s : SP) : SP :=
  {| buffer_ := buffer_ s; count_ := count_ s; index_ := index_ s;
     sum_ := sum_ s; sumSq_ := sumSq_ s;
     minVal_ := minVal_ s; maxVal_ := maxVal_ s;
     needRecalcMinMax_ := needRecalcMinMax_ s;
     ema_ := ema_ s;
     lastValue_ := lastValue_ s; lastTimeMs_ := lastTimeMs_ s;
     derivativePeriodMs_ := derivativePeriodMs_ s;
     useEmaFilteredValueForDerivation_ := useEmaFilteredValueForDerivation_ s;
     derivative_ := derivative_ s;
     derivativeFiltered_ := derivativeFiltered_ s;
     integrator_ := integrator_ s;
     lastIntegrandValue_ := lastIntegrandValue_ s;
     alphaEma_ := alphaEma_ s;
     alphaDerivFilter_ := clamp01 alpha;
     alphaLowpass_ := alphaLowpass_ s |}.

Definition setLowpassAlpha (alpha : f32) (s : SP) : SP :=
  {| buffer_ := buffer_ s; count_ := count_ s; index_ := index_ s;
     sum_ := sum_ s; sumSq_ := sumSq_ s;
     minVal_ := minVal_ s; maxVal_ := maxVal_ s;
     needRecalcMinMax_ := needRecalcMinMax_ s;
     ema_ := ema_ s;
     lastValue_ := lastValue_ s; lastTimeMs_ := lastTimeMs_ s;
     derivativePeriodMs_ := derivativePeriodMs_ s;
     useEmaFilteredValueForDerivation_ := useEmaFilteredValueForDerivation_ s;
     derivative_ := derivative_ s;
     derivativeFiltered_ := derivativeFiltered_ s;
     integrator_ := integrator_ s;
     lastIntegrandValue_ := lastIntegrandValue_ s;
     alphaEma_ := alphaEma_ s;
     alphaDerivFilter_ := alphaDerivFilter_ s;
     alphaLowpass_ := clamp01 alpha |}.

(** *** Lazy recomputation of min/max *)

(** The body of the scanning loop for one cell [b]. *)
Definition scan_step (acc : T * T) (b : T) : T * T :=
  (if T_ltb b (fst acc) then b else fst acc,
   if T_gtb b (snd acc) then b else snd acc).

(** [for (uint16_t i = 1; i < count_; i++)] over [buffer_[i]]. *)
Definition scan (b : list T) (count : Z) : T * T :=
  fold_left (fun acc i => scan_step acc (buf_at b (Z.of_nat i)))
            (seq 1 (Z.to_nat count - 1)) (buf_at b 0, buf_at b 0).

Definition set_minmax (mn mx : T) (s : SP) : SP :=
  {| buffer_ := buffer_ s; count_ := count_ s; index_ := index_ s;
     sum_ := sum_ s; sumSq_ := sumSq_ s;
     minVal_ := mn; maxVal_ := mx;
     needRecalcMinMax_ := false;
     ema_ := ema_ s;
     lastValue_ := lastValue_ s; lastTimeMs_ := lastTimeMs_ s;
     derivativePeriodMs_ := derivativePeriodMs_ s;
     useEmaFilteredValueForDerivation_ := useEmaFilteredValueForDerivation_ s;
     derivative_ := derivative_ s;
     derivativeFiltered_ := derivativeFiltered_ s;
     integrator_ := integrator_ s;
     lastIntegrandValue_ := lastIntegrandValue_ s;
     alphaEma_ := alphaEma_ s;
     alphaDerivFilter_ := alphaDerivFilter_ s;
     alphaLowpass_ := alphaLowpass_ s |}.

Definition recalculateMinMax (s : SP) : SP :=
  if count_ s =? 0 then set_minmax T_zero T_zero s
  else set_minmax (fst (scan (buffer_ s) (count_ s)))
                  (snd (scan (buffer_ s) (count_ s))) s.

(** *** Adding a sample *)

(** The guard of the rate module:
    [timeMs > 0 && (timeMs - lastTimeMs_ > derivativePeriodMs_)].
    The subtraction is done in [uint32_t] and wraps; the period is converted
    to unsigned for the comparison. *)
Definition elapsed (s : SP) (timeMs : Z) : Z := u32 (timeMs - lastTimeMs_ s).

Definition rate_gate (s : SP) (timeMs : Z) : bool :=
  (0 <? timeMs) && (derivativePeriodMs_ s <? elapsed s timeMs).

(** [float dt = (float)(timeMs - lastTimeMs_) * 0.001f] *)
Definition rate_dt (s : SP) (timeMs : Z) : f32 :=
  F32.mul (F32.of_Z (elapsed s timeMs)) F32.c0_001.

(** [int val = useEmaFilteredValueForDerivation_ ? ema_ : value]: the
    conditional has type [float], and initialising the [int] truncates it.
    [ema] is the filter output already updated with this sample. *)
Definition selected_val (s : SP) (ema : f32) (value : T) : Z :=
  F32.to_int (if useEmaFilteredValueForDerivation_ s then ema
              else to_float value).

(** [rawDerivative = (float)((int)val - lastValue_) / dt] *)
Definition raw_derivative (s : SP) (ema : f32) (value : T) (timeMs : Z) : f32 :=
  F32.div (int_minus (selected_val s ema value) (lastValue_ s))
          (rate_dt s timeMs).

(** [ema_] after the sample, [count] being [count_] after its update. *)
Definition ema_next (s : SP) (count : Z) (value : T) : f32 :=
  if count =? 1 then to_float value
  else F32.add (F32.mul (alphaEma_ s) (to_float value))
               (F32.mul (F32.sub F32.one (alphaEma_ s)) (ema_ s)).

Definition add (s : SP) (value : T) (timeMs : Z) : SP :=
  (* if (count_ == N) { ... } else { count_++; } *)
  let full := count_ s =? N in
  let oldValue := buf_at (buffer_ s) (index_ s) in
  let sum1 := if full then F32.sub (sum_ s) (to_float oldValue) else sum_ s in
  let sumSq1 :=
    if full
    then F32.sub (sumSq_ s) (F32.mul (to_float oldValue) (to_float oldValue))
    else sumSq_ s in
  let need1 :=
    if full
    then (if T_eqb oldValue (minVal_ s) || T_eqb oldValue (maxVal_ s)
          then true else needRecalcMinMax_ s)
    else needRecalcMinMax_ s in
  let count1 := if full then count_ s else u16 (count_ s + 1) in
  (* buffer_[index_] = value; sum_ += ...; sumSq_ += ... *)
  let buffer1 := buf_set (buffer_ s) (index_ s) value in
  let sum2 := F32.add sum1 (to_float value) in
  let sumSq2 := F32.add sumSq1 (F32.mul (to_float value) (to_float value)) in
  (* min/max *)
  let min2 :=
    if count1 =? 1 then value
    else if negb need1
         then (if T_ltb value (minVal_ s) then value else minVal_ s)
         else minVal_ s in
  let max2 :=
    if count1 =? 1 then value
    else if negb need1
         then (if T_gtb value (maxVal_ s) then value else maxVal_ s)
         else maxVal_ s in
  let need2 := if count1 =? 1 then false else need1 in
  (* EMA *)
  let ema2 := ema_next s count1 value in
  (* derivative and integrator *)
  let gate := rate_gate s timeMs in
  let dt := rate_dt s timeMs in
  let val := selected_val s ema2 value in
  let rawDerivative := raw_derivative s ema2 value timeMs in
  let derivativeFiltered3 :=
    if count1 <=? 2 then rawDerivative
    else F32.add (F32.mul (alphaDerivFilter_ s) rawDerivative)
                 (F32.mul (F32.sub F32.one (alphaDerivFilter_ s))
                          (derivativeFiltered_ s)) in
  let integrator3 :=
    if 1 <? count1
    then F32.add (integrator_ s)
                 (F32.mul (F32.mul F32.half
                                   (F32.add (lastIntegrandValue_ s)
                                            (to_float value)))
                          dt)
    else integrator_ s in
  (* index_++; if (index_ >= N) index_ = 0; *)
  let index1 := u16 (index_ s + 1) in
  let index2 := if N <=? index1 then 0 else index1 in
  {| buffer_ := buffer1;
     count_ := count1;
     index_ := index2;
     sum_ := sum2;
     sumSq_ := sumSq2;
     minVal_ := min2;
     maxVal_ := max2;
     needRecalcMinMax_ := need2;
     ema_ := ema2;
     lastValue_ := if gate then of_int val else lastValue_ s;
     lastTimeMs_ :=
       if gate then (if 0 <? timeMs then timeMs else lastTimeMs_ s)
       else lastTimeMs_ s;
     derivativePeriodMs_ := derivativePeriodMs_ s;
     useEmaFilteredValueForDerivation_ := useEmaFilteredValueForDerivation_ s;
     derivative_ := if gate then rawDerivative else derivative_ s;
     derivativeFiltered_ :=
       if gate then derivativeFiltered3 else derivativeFiltered_ s;
     integrator_ := if gate then integrator3 else integrator_ s;
     lastIntegrandValue_ :=
       if gate then to_float value else lastIntegrandValue_ s;
     alphaEma_ := alphaEma_ s;
     alphaDerivFilter_ := alphaDerivFilter_ s;
     alphaLowpass_ := alphaLowpass_ s |}.

(** *** Resets *)

Definition reset (s : SP) : SP :=
  {| buffer_ := buffer_ s;
     count_ := 0;
     index_ := 0;
     sum_ := F32.zero;
     sumSq_ := F32.zero;
     minVal_ := T_zero;
     maxVal_ := T_zero;
     needRecalcMinMax_ := false;
     ema_ := F32.zero;
     lastValue_ := T_zero;
     lastTimeMs_ := 0;
     derivativePeriodMs_ := derivativePeriodMs_ s;
     useEmaFilteredValueForDerivation_ := useEmaFilteredValueForDerivation_ s;
     derivative_ := F32.zero;
     derivativeFiltered_ := F32.zero;
     integrator_ := F32.zero;
     lastIntegrandValue_ := F32.zero;
     alphaEma_ := alphaEma_ s;
     alphaDerivFilter_ := alphaDerivFilter_ s;
     alphaLowpass_ := alphaLowpass_ s |}.

Definition resetIntegral (s : SP) : SP :=
  {| buffer_ := buffer_ s; count_ := count_ s; index_ := index_ s;
     sum_ := sum_ s; sumSq_ := sumSq_ s;
     minVal_ := minVal_ s; maxVal_ := maxVal_ s;
     needRecalcMinMax_ := needRecalcMinMax_ s;
     ema_ := ema_ s;
     lastValue_ := lastValue_ s; lastTimeMs_ := lastTimeMs_ s;
     derivativePeriodMs_ := derivativePeriodMs_ s;
     useEmaFilteredValueForDerivation_ := useEmaFilteredValueForDerivation_ s;
     derivative_ := derivative_ s;
     derivativeFiltered_ := derivativeFiltered_ s;
     integrator_ := F32.zero;
     lastIntegrandValue_ := F32.zero;
     alphaEma_ := alphaEma_ s;
     alphaDerivFilter_ := alphaDerivFilter_ s;
     alphaLowpass_ := alphaLowpass_ s |}.

(** *** Statistics *)

Definition getCount (s : SP) : Z := count_ s.

Definition getSum (s : SP) : f32 := sum_ s.

Definition getMean (s : SP) : f32 :=
  if 0 <? count_ s then F32.div (sum_ s) (F32.of_Z (count_ s)) else F32.zero.

Definition getVariance (s : SP) : f32 :=
  if count_ s <=? 1 then F32.zero
  else
    let mean := getMean s in
    F32.div (F32.sub (sumSq_ s)
                     (F32.mul (F32.mul (F32.of_Z (count_ s)) mean) mean))
            (F32.of_Z (count_ s - 1)).

Definition getStdDev (s : SP) : f32 := F32.sqrt (getVariance s).

Definition getCoefficientOfVariation (s : SP) : f32 :=
  let mean := getMean s in
  if F32.eqb mean F32.zero then F32.zero
  else F32.mul (F32.div (getStdDev s) mean) F32.c100.

(** [getMin], [getMax] and [getRange] are not [const]: they run the owed
    rescan first.  Each returns its result and the object afterwards. *)
Definition refresh (s : SP) : SP :=
  if needRecalcMinMax_ s then recalculateMinMax s else s.

Definition getMin (s : SP) : T * SP := (minVal_ (refresh s), refresh s).

Definition getMax (s : SP) : T * SP := (maxVal_ (refresh s), refresh s).

Definition getRange (s : SP) : f32 * SP :=
  (minus_to_float (maxVal_ (refresh s)) (minVal_ (refresh s)), refresh s).

(** *** Filters, derivative, integrator *)

Definition getEma (s : SP) : f32 := ema_ s.

Definition getSma (s : SP) : f32 := getMean s.

Definition getDerivative (s : SP) : f32 := derivative_ s.

Definition getDerivativeFiltered (s : SP) : f32 := derivativeFiltered_ s.

Definition getIntegral (s : SP) : f32 := integrator_ s.

(** *** Signal analysis *)

Definition isOutlier (s : SP) (value : T) (sigmaThreshold : f32) : bool :=
  if count_ s <? 2 then false
  else
    let mean := getMean s in
    let stdDev := getStdDev s in
    if F32.eqb stdDev F32.zero then false
    else
      let deviation := F32.sub (to_float value) mean in
      let deviation :=
        if F32.ltb deviation F32.zero then F32.opp deviation else deviation in
      F32.gtb deviation (F32.mul sigmaThreshold stdDev).

Definition isStable (s : SP) (maxStdDev : f32) : bool :=
  (N / 2 <=? count_ s) && F32.ltb (getStdDev s) maxStdDev.

Definition isFull (s : SP) : bool := count_ s =? N.

Definition isEmpty (s : SP) : bool := count_ s =? 0.

(** *** Access *)

Definition getBuffer (s : SP) : list T := buffer_ s.

Definition getBufferSize (s : SP) : Z := N.

Definition getLastValue (s : SP) : T := lastValue_ s.

Definition getLastTime (s : SP) : Z := lastTimeMs_ s.

(** *** Sequences of calls *)

(** The calls that change the object.  [getMin], [getMax] and [getRange]
    are among them because of the lazy rescan. *)
Inductive Op :=
| OpAdd (value : T) (timeMs : Z)
| OpReset
| OpResetIntegral
| OpSetEmaAlpha (alpha : f32)
| OpSetDerivativePeriodMs (period : Z)
| OpSetIsEmaUseForDerivative (isEmaUse : bool)
| OpSetDerivativeFilterAlpha (alpha : f32)
| OpSetLowpassAlpha (alpha : f32)
| OpGetMin
| OpGetMax
| OpGetRange.

Definition step (s : SP) (o : Op) : SP :=
  match o with
  | OpAdd value timeMs => add s value timeMs
  | OpReset => reset s
  | OpResetIntegral => resetIntegral s
  | OpSetEmaAlpha alpha => setEmaAlpha alpha s
  | OpSetDerivativePeriodMs period => setDerivativePeriodMs period s
  | OpSetIsEmaUseForDerivative b => setIsEmaUseForDerivative b s
  | OpSetDerivativeFilterAlpha alpha => setDerivativeFilterAlpha alpha s
  | OpSetLowpassAlpha alpha => setLowpassAlpha alpha s
  | OpGetMin => snd (getMin s)
  | OpGetMax => snd (getMax s)
  | OpGetRange => snd (getRange s)
  end.

Definition run (ops : list Op) (s : SP) : SP := fold_left step ops s.

(** The samples added since the last [reset()], oldest first. *)
Definition added_step (h : list T) (o : Op) : list T :=
  match o with
  | OpAdd value _ => h ++ [value]
  | OpReset => []
  | _ => h
  end.

Definition added (ops : list Op) : list T := fold_left added_step ops [].

(** The last [n] elements of a list. *)
Definition lastn (n : nat) (l : list T) : list T := drop (length l - n) l.

(** The resident samples: the cells [buffer_[0 .. count_-1]]. *)
Definition resident (s : SP) : list T :=
  take (Z.to_nat (count_ s)) (buffer_ s).

(** The cells from [index_] on followed by the cells before it: once the
    buffer is full this is the window in order of arrival. *)
Definition rotated (s : SP) : list T :=
  drop (Z.to_nat (index_ s)) (buffer_ s) ++
  take (Z.to_nat (index_ s)) (buffer_ s).

(** Shape of a live object: the array has [N] cells, [count_ <= N],
    [index_ < N], and until the buffer fills the next write goes to cell
    [count_]. *)
Definition wf (s : SP) : Prop :=
  length (buffer_ s) = Z.to_nat N /\
  0 <= count_ s <= N /\
  0 <= index_ s < N /\
  (count_ s < N -> index_ s = count_ s).

(** *** Exact sums *)







Definition div_exact (x y : f32) : bool :=
  F32.is_finite (F32.div x y) &&
  Qeq_bool (F32.to_Q (F32.div x y)) (F32.to_Q x / F32.to_Q y).





(** [sum_/(float)count_] does not round. *)
Definition mean_exact (s : SP) : bool :=
  F32.is_finite (getMean s) &&
  Qeq_bool (F32.to_Q (getMean s)) (F32.to_Q (sum_ s) / inject_Z (count_ s)).



(** *** Extrema of a list *)

(** [m] is in [l] and nothing in [l] is below it for the comparison [lt]. *)
Definition is_least (lt : T -> T -> bool) (m : T) (l : list T) : Prop :=
  m ∈ l /\ forall x, x ∈ l -> lt x m = false.

Definition is_min (m : T) (l : list T) : Prop := is_least T_ltb m l.

Definition is_max (m : T) (l : list T) : Prop := is_least T_gtb m l.

(** The running extremum of the scanning loop and of the fast path. *)
Definition pick (lt : T -> T -> bool) (m b : T) : T :=
  if lt b m then b else m.

(** Unless a rescan is owed, [minVal_] and [maxVal_] are the extrema of the
    resident samples. *)
Definition tracked (s : SP) : Prop :=
  needRecalcMinMax_ s = false -> 0 < count_ s ->
  is_min (minVal_ s) (resident s) /\ is_max (maxVal_ s) (resident s).

(** The window holds the last samples of [h], in order of arrival. *)
Definition chrono (s : SP) (h : list T) : Prop :=
  (count_ s < N -> resident s = h) /\
  (count_ s = N -> rotated s = lastn (Z.to_nat N) h).

(** Every sample a call adds is equal to itself. *)
Definition op_self_equal (o : Op) : Prop :=
  match o with
  | OpAdd value _ => T_eqb value value = true
  | _ => True
  end.

(** *** Everything a caller can read *)

Inductive Query :=
| QCount | QSum | QMean | QVariance | QStdDev | QCoefficientOfVariation
| QMin | QMax | QRange
| QEma | QSma
| QDerivative | QDerivativeFiltered | QIntegral
| QIsOutlier (value : T) (sigmaThreshold : f32)
| QIsStable (maxStdDev : f32)
| QIsFull | QIsEmpty
| QBuffer | QBufferSize | QLastValue | QLastTime.

Inductive Answer :=
| AInt (z : Z)
| AFloat (x : f32)
| ASample (v : T)
| ABool (b : bool)
| ACells (b : list T).

Definition observe (q : Query) (s : SP) : Answer :=
  match q with
  | QCount => AInt (getCount s)
  | QSum => AFloat (getSum s)
  | QMean => AFloat (getMean s)
  | QVariance => AFloat (getVariance s)
  | QStdDev => AFloat (getStdDev s)
  | QCoefficientOfVariation => AFloat (getCoefficientOfVariation s)
  | QMin => ASample (fst (getMin s))
  | QMax => ASample (fst (getMax s))
  | QRange => AFloat (fst (getRange s))
  | QEma => AFloat (getEma s)
  | QSma => AFloat (getSma s)
  | QDerivative => AFloat (getDerivative s)
  | QDerivativeFiltered => AFloat (getDerivativeFiltered s)
  | QIntegral => AFloat (getIntegral s)
  | QIsOutlier value sigmaThreshold => ABool (isOutlier s value sigmaThreshold)
  | QIsStable maxStdDev => ABool (isStable s maxStdDev)
  | QIsFull => ABool (isFull s)
  | QIsEmpty => ABool (isEmpty s)
  | QBuffer => ACells (getBuffer s)
  | QBufferSize => AInt (getBufferSize s)
  | QLastValue => ASample (getLastValue s)
  | QLastTime => AInt (getLastTime s)
  end.

(** Two objects that differ at most in [alphaLowpass_]. *)
Definition same_but_lowpass (s1 s2 : SP) : Prop :=
  setLowpassAlpha F32.zero s1 = setLowpassAlpha F32.zero s2.

(** *** The rate module, split off [add]

    The members the rate module owns, and the members the rest of [add]
    owns. *)
Definition rate_state (s : SP) : f32 * f32 * f32 * f32 * T * Z :=
  (derivative_ s, derivativeFiltered_ s, integrator_ s,
   lastIntegrandValue_ s, lastValue_ s, lastTimeMs_ s).

Definition store_state (s : SP)
  : list T * Z * Z * f32 * f32 * T * T * bool * f32 :=
  (buffer_ s, count_ s, index_ s, sum_ s, sumSq_ s,
   minVal_ s, maxVal_ s, needRecalcMinMax_ s, ema_ s).

Definition config_state (s : SP) : Z * bool * f32 * f32 * f32 :=
  (derivativePeriodMs_ s, useEmaFilteredValueForDerivation_ s,
   alphaEma_ s, alphaDerivFilter_ s, alphaLowpass_ s).

End Processor.

Arguments Op : clear implicits.
Arguments Query : clear implicits.
Arguments Answer : clear implicits.

(* ===================================================================== *)
(** ** The filters and the rate module as the specification words them *)
(* ===================================================================== *)

(** These definitions follow the text of the specification, not the header;
    they are what the header is compared with. *)

(** Low-pass output: the first sample seeds it, every later sample applies
    [y = alpha * x + (1 - alpha) * y]. *)
Definition lowpass_claimed (alpha : f32) (samples : list f32) : f32 :=
  match samples with
  | [] => F32.zero
  | x :: rest =>
      fold_left (fun y x' => F32.add (F32.mul alpha x')
                                     (F32.mul (F32.sub F32.one alpha) y))
                rest x
  end.

(** Rate module: [reached] counts the samples that got past the guard. *)
Record RateClaimed := mkRateClaimed {
  reached : nat;
  claimed_lastSelected : f32;
  claimed_derivative : f32;
  claimed_smoothed : f32;
  claimed_prevIntegrand : f32;
  claimed_integral : f32
}.

Definition rate_claimed_init : RateClaimed :=
  mkRateClaimed 0 F32.zero F32.zero F32.zero F32.zero F32.zero.

(** One sample [selected] reaching the module after [dt] seconds:
    raw derivative [(selected - lastSelected) / dt]; smoothed derivative
    seeded to the raw one for the first two samples, then
    [alpha * raw + (1 - alpha) * previous]; trapezoid
    [0.5 * (previous + current) * dt] from the second sample on. *)
Definition rate_claimed_step (alpha selected dt : f32) (r : RateClaimed)
  : RateClaimed :=
  let raw := F32.div (F32.sub selected (claimed_lastSelected r)) dt in
  {| reached := S (reached r);
     claimed_lastSelected := selected;
     claimed_derivative := raw;
     claimed_smoothed :=
       if (reached r <? 2)%nat then raw
       else F32.add (F32.mul alpha raw)
                    (F32.mul (F32.sub F32.one alpha) (claimed_smoothed r));
     claimed_prevIntegrand := selected;
     claimed_integral :=
       if (1 <=? reached r)%nat
       then F32.add (claimed_integral r)
                    (F32.mul (F32.mul F32.half
                                      (F32.add (claimed_prevIntegrand r)
                                               selected))
                             dt)
       else claimed_integral r |}.

Section Claimed.

Context {T : Type} `{SampleType T}.
Variable N : Z.

(** The selected input signal: the EMA output (already updated with the
    sample) when the flag is set, the sample itself otherwise. *)
Definition selected_claimed (s : SignalProcessor T) (value : T) : f32 :=
  if useEmaFilteredValueForDerivation_ s
  then ema_ (add N s value 0)
  else to_float value.

(** The claimed rate module driven by the same calls, guard and [dt] as the
    object [s]. *)
Fixpoint rate_claimed_run (ops : list (Op T)) (s : SignalProcessor T)
  (r : RateClaimed) : RateClaimed :=
  match ops with
  | [] => r
  | o :: ops' =>
      rate_claimed_run ops' (step N s o)
        match o with
        | OpAdd value timeMs =>
            if rate_gate s timeMs
            then rate_claimed_step (alphaDerivFilter_ s)
                                   (selected_claimed s value)
                                   (rate_dt s timeMs) r
            else r
        | OpReset => rate_claimed_init
        | OpResetIntegral =>
            mkRateClaimed (reached r) (claimed_lastSelected r)
                          (claimed_derivative r) (claimed_smoothed r)
                          F32.zero F32.zero
        | _ => r
        end
  end.

(** Storage filled with zero bytes, as for an object of static storage
    duration, and the object constructed in it. *)
Definition zeroed : SignalProcessor T :=
  {| buffer_ := replicate (Z.to_nat N) T_zero;
     count_ := 0; index_ := 0;
     sum_ := F32.zero; sumSq_ := F32.zero;
     minVal_ := T_zero; maxVal_ := T_zero;
     needRecalcMinMax_ := false;
     ema_ := F32.zero;
     lastValue_ := T_zero; lastTimeMs_ := 0;
     derivativePeriodMs_ := 0;
     useEmaFilteredValueForDerivation_ := false;
     derivative_ := F32.zero; derivativeFiltered_ := F32.zero;
     integrator_ := F32.zero; lastIntegrandValue_ := F32.zero;
     alphaEma_ := F32.zero; alphaDerivFilter_ := F32.zero;
     alphaLowpass_ := F32.zero |}.

Definition fresh : SignalProcessor T := SignalProcessor_ctor zeroed.

End Claimed.

(** Storage of an object of automatic storage duration: whatever the stack
    held.  Here the bytes of [derivativePeriodMs_] read 500 and the byte of
    [useEmaFilteredValueForDerivation_] reads [true]. *)
Definition stack_storage : SignalProcessor float :=
  {| buffer_ := replicate 4 F32.zero;
     count_ := 17; index_ := 3;
     sum_ := F32.one; sumSq_ := F32.one;
     minVal_ := F32.one; maxVal_ := F32.one;
     needRecalcMinMax_ := true;
     ema_ := F32.one;
     lastValue_ := F32.one; lastTimeMs_ := 99;
     derivativePeriodMs_ := 500;
     useEmaFilteredValueForDerivation_ := true;
     derivative_ := F32.one; derivativeFiltered_ := F32.one;
     integrator_ := F32.one; lastIntegrandValue_ := F32.one;
     alphaEma_ := F32.one; alphaDerivFilter_ := F32.one;
     alphaLowpass_ := F32.one |}.

(** *** Scenarios *)

(** Capacity 5, samples 1..5 and then 6, no timestamps. *)
Definition ops_1_to_5 : list (Op int16_t) :=
  [OpAdd 1 0; OpAdd 2 0; OpAdd 3 0; OpAdd 4 0; OpAdd 5 0].

Definition ops_1_to_6 : list (Op int16_t) := ops_1_to_5 ++ [OpAdd 6 0].

(** The same with the queries and a reset in between. *)
Definition ops_mixed : list (Op int16_t) :=
  [OpAdd 9 0; OpReset; OpAdd 1 0; OpAdd 2 0; OpGetMin; OpAdd 3 0; OpAdd 4 0;
   OpAdd 5 0; OpGetMax; OpAdd 6 0; OpAdd 0 0; OpGetRange; OpAdd 5 0].

(** A constant signal: 4097 three times. *)
Definition ops_constant : list (Op int16_t) :=
  [OpAdd 4097 0; OpAdd 4097 0; OpAdd 4097 0].

(** The derivative input is the EMA; samples 0.0 at 1 s and 10.0 at 2 s. *)
Definition ops_ema_input : list (Op float) :=
  [OpSetIsEmaUseForDerivative true; OpAdd F32.zero 1000;
   OpAdd (F32.of_Z 10) 2000].

(** One sample without a timestamp, then one at 1 s. *)
Definition ops_late_timestamp : list (Op int16_t) :=
  [OpAdd 3 0; OpAdd 4 1000].

(** Two samples without a timestamp, then one at 1 s. *)
Definition ops_third_timestamped : list (Op int16_t) :=
  [OpAdd 1 0; OpAdd 2 0; OpAdd 3 1000].

(** Three samples one second apart. *)
Definition ops_every_second : list (Op int16_t) :=
  [OpAdd 1 1000; OpAdd 2 2000; OpAdd 4 3000].

(** A period of 10 ms and a first sample at 1 s. *)
Definition ops_period_10 : list (Op int16_t) :=
  [OpSetDerivativePeriodMs 10; OpAdd 1 1000].

(** A first sample at 5 s. *)
Definition ops_at_5s : list (Op int16_t) := [OpAdd 1 5000].

(** Two samples, a query, then a reset followed by calls that add
    nothing. *)
Definition ops_then_reset : list (Op int16_t) :=
  [OpAdd 1 0; OpAdd 2 500; OpGetMin; OpReset; OpSetEmaAlpha F32.half;
   OpGetMax].

(** Zeroed storage of capacity 5 whose array holds left-over values. *)
Definition dirty_storage : SignalProcessor int16_t :=
  {| buffer_ := [7; -3; 7; 7; 100];
     count_ := 0; index_ := 0;
     sum_ := F32.zero; sumSq_ := F32.zero;
     minVal_ := 0; maxVal_ := 0;
     needRecalcMinMax_ := false;
     ema_ := F32.zero;
     lastValue_ := 0; lastTimeMs_ := 0;
     derivativePeriodMs_ := 0;
     useEmaFilteredValueForDerivation_ := false;
     derivative_ := F32.zero; derivativeFiltered_ := F32.zero;
     integrator_ := F32.zero; lastIntegrandValue_ := F32.zero;
     alphaEma_ := F32.zero; alphaDerivFilter_ := F32.zero;
     alphaLowpass_ := F32.zero |}.

(** 9.81f = 0x411CF5C3 and 0.02f = 0x3CA3D70A. *)
Definition c9_81 : f32 := S754_finite false 10286531 (-20).
Definition c0_02 : f32 := S754_finite false 10737418 (-29).

(** The README's sensor-quality example: [SignalProcessor<int16_t, 300>]
    filled by a sensor that reads 4097 every time. *)
Definition ops_stuck_sensor : list (Op int16_t) :=
  replicate 300 (OpAdd 4097 0).

(** The README's calibration example: [SignalProcessor<float, 200>] fed 200
    readings of a device at rest, 9.81f each. *)
Definition ops_calibration : list (Op float) :=
  replicate 200 (OpAdd c9_81 0).

(** A NaN reading followed by 1.0 and 2.0, capacity 2. *)
Definition ops_nan_first : list (Op float) :=
  [OpAdd S754_nan 0; OpAdd F32.one 0; OpAdd (F32.of_Z 2) 0].



(** Standard deviation as the specification words it: the variance is
    clamped to be at least 0 before the root is taken. *)
Definition stddev_claimed {T : Type} `{SampleType T} (s : SignalProcessor T)
  : f32 :=
  let v := getVariance s in
  F32.sqrt (if F32.ltb v F32.zero then F32.zero else v).

(** The comparisons of a sample type on which "minimum" and "maximum" make
    sense: [<] and [>] are irreflexive and transitive.  Every arithmetic
    type of C++ satisfies this, NaN included (a NaN compares false). *)
Class SampleOrder (T : Type) `{SampleType T} : Prop := {
  T_ltb_irrefl : forall a : T, T_ltb a a = false;
  T_ltb_trans : forall a b c : T,
      T_ltb a b = true -> T_ltb b c = true -> T_ltb a c = true;
  T_gtb_irrefl : forall a : T, T_gtb a a = false;
  T_gtb_trans : forall a b c : T,
      T_gtb a b = true -> T_gtb b c = true -> T_gtb a c = true
}.

(** The comparisons of an integer sample type: what is neither below nor
    above is the same value, and every value is equal to itself. *)
Class SampleTotal (T : Type) `{SampleType T} : Prop := {
  T_ltb_total : forall a b : T, T_ltb a b = false -> T_ltb b a = false -> a = b;
  T_gtb_total : forall a b : T, T_gtb a b = false -> T_gtb b a = false -> a = b;
  T_eqb_refl : forall a : T, T_eqb a a = true
}.

(** [x <= y] on floats. *)
Definition f32_leb (x y : f32) : bool :=
  match SFcompare x y with Some (Lt | Eq) => true | _ => false end.

(** [P] holds for the [n] integers from [from] on. *)
Fixpoint forall_from (n : nat) (from : Z) (P : Z -> bool) : bool :=
  match n with
  | O => true
  | S n' => P from && forall_from n' (from + 1) P
  end.

(** [(float)z] is exact and converts back to [z]. *)
Definition converts_exactly (z : Z) : bool :=
  (F32.to_int (F32.of_Z z) =? z) &&
  F32.is_finite (F32.of_Z z) &&
  Qeq_bool (F32.to_Q (F32.of_Z z)) (inject_Z z).

Section MoreOperations.

Context {T : Type} `{SampleType T}.
Variable N : Z.

(** [operator+=]: [add(value, 0)], and the object is returned. *)
Definition plus_assign (s : SignalProcessor T) (value : T)
  : SignalProcessor T :=
  add N s value 0.

(** The members other than the array, the rate module and the
    configuration. *)
Definition scalars (s : SignalProcessor T)
  : Z * Z * f32 * f32 * T * T * bool * f32 :=
  (count_ s, index_ s, sum_ s, sumSq_ s,
   minVal_ s, maxVal_ s, needRecalcMinMax_ s, ema_ s).

(** Two objects that agree on everything but the cells of the array that
    hold no resident sample. *)
Definition same_but_cells (s1 s2 : SignalProcessor T) : Prop :=
  scalars s1 = scalars s2 /\
  rate_state s1 = rate_state s2 /\
  config_state s1 = config_state s2 /\
  length (buffer_ s1) = length (buffer_ s2) /\
  resident s1 = resident s2.

(** Two objects that agree on everything but the cached extrema and the
    flag that says a rescan is owed. *)
Definition same_but_minmax (s1 s2 : SignalProcessor T) : Prop :=
  buffer_ s1 = buffer_ s2 /\
  (count_ s1, index_ s1, sum_ s1, sumSq_ s1, ema_ s1)
  = (count_ s2, index_ s2, sum_ s2, sumSq_ s2, ema_ s2) /\
  rate_state s1 = rate_state s2 /\
  config_state s1 = config_state s2.

(** With no resident sample the statistics members are as after
    [reset()]. *)
Definition empty_like (s : SignalProcessor T) : Prop :=
  count_ s = 0 ->
  sum_ s = F32.zero /\ sumSq_ s = F32.zero /\
  minVal_ s = T_zero /\ maxVal_ s = T_zero /\
  needRecalcMinMax_ s = false /\ ema_ s = F32.zero.

Definition is_setter (o : Op T) : bool :=
  match o with
  | OpSetEmaAlpha _ | OpSetDerivativePeriodMs _
  | OpSetIsEmaUseForDerivative _ | OpSetDerivativeFilterAlpha _
  | OpSetLowpassAlpha _ => true
  | _ => false
  end.

Definition is_rescan (o : Op T) : bool :=
  match o with
  | OpGetMin | OpGetMax | OpGetRange => true
  | _ => false
  end.

Definition is_buffer_query (q : Query T) : bool :=
  match q with QBuffer => true | _ => false end.

Definition is_integral_query (q : Query T) : bool :=
  match q with QIntegral => true | _ => false end.

End MoreOperations.

(** A call that adds a sample adds one inside the range of [int16_t]. *)
Definition op_in_int16 (o : Op int16_t) : Prop :=
  match o with
  | OpAdd value _ => -32768 <= value <= 32767
  | _ => True
  end.

(* ===================================================================== *)
(** ** Properties *)
(* ===================================================================== *)

#[export] Instance int16_order : SampleOrder int16_t.
Proof.
  split; simpl; intros.
  - apply Z.ltb_irrefl.
  - apply Z.ltb_lt in H, H0. apply Z.ltb_lt. lia.
  - rewrite Z.gtb_ltb. apply Z.ltb_irrefl.
  - rewrite Z.gtb_ltb in *. apply Z.ltb_lt in H, H0. apply Z.ltb_lt. lia.
Qed.

(** *** The order on floats *)

Lemma lex_compare_Lt (e1 : Z) (m1 : positive) (e2 : Z) (m2 : positive) :
  lex_compare e1 m1 e2 m2 = Lt <-> e1 < e2 \/ (e1 = e2 /\ (m1 < m2)%positive).
Proof.
  unfold lex_compare. change (Pos.compare_cont Eq m1 m2) with (m1 ?= m2)%positive.
  destruct (Z.compare_spec e1 e2); destruct (Pos.compare_spec m1 m2);
    split; intros; try discriminate; try reflexivity; try lia.
Qed.

Lemma lex_compare_Gt (e1 : Z) (m1 : positive) (e2 : Z) (m2 : positive) :
  lex_compare e1 m1 e2 m2 = Gt <-> e2 < e1 \/ (e1 = e2 /\ (m2 < m1)%positive).
Proof.
  unfold lex_compare. change (Pos.compare_cont Eq m1 m2) with (m1 ?= m2)%positive.
  destruct (Z.compare_spec e1 e2); destruct (Pos.compare_spec m1 m2);
    split; intros; try discriminate; try reflexivity; try lia.
Qed.

Lemma lex_compare_refl (e : Z) (m : positive) : lex_compare e m e m = Eq.
Proof.
  unfold lex_compare. rewrite Z.compare_refl.
  change (Pos.compare_cont Eq m m) with (m ?= m)%positive.
  apply Pos.compare_refl.
Qed.

Lemma lex_compare_opp_Lt (e1 : Z) (m1 : positive) (e2 : Z) (m2 : positive) :
  CompOpp (lex_compare e1 m1 e2 m2) = Lt <-> lex_compare e1 m1 e2 m2 = Gt.
Proof. destruct (lex_compare e1 m1 e2 m2); cbn; split; congruence. Qed.

Lemma lex_compare_opp_Gt (e1 : Z) (m1 : positive) (e2 : Z) (m2 : positive) :
  CompOpp (lex_compare e1 m1 e2 m2) = Gt <-> lex_compare e1 m1 e2 m2 = Lt.
Proof. destruct (lex_compare e1 m1 e2 m2); cbn; split; congruence. Qed.

Lemma SFcompare_finite (s1 s2 : bool) (m1 m2 : positive) (e1 e2 : Z) :
  SFcompare (S754_finite s1 m1 e1) (S754_finite s2 m2 e2)
  = Some match s1, s2 with
         | true, false => Lt
         | false, true => Gt
         | false, false => lex_compare e1 m1 e2 m2
         | true, true => CompOpp (lex_compare e1 m1 e2 m2)
         end.
Proof.
  unfold lex_compare. cbn. destruct s1, s2; try reflexivity;
    destruct (e1 ?= e2); reflexivity.
Qed.

Lemma F32_ltb_irrefl (a : f32) : F32.ltb a a = false.
Proof.
  unfold F32.ltb. destruct a as [s|s| |s m e]; try (destruct s; reflexivity);
    [reflexivity|].
  rewrite SFcompare_finite, lex_compare_refl. destruct s; reflexivity.
Qed.

Lemma F32_gtb_irrefl (a : f32) : F32.gtb a a = false.
Proof.
  unfold F32.gtb. destruct a as [s|s| |s m e]; try (destruct s; reflexivity);
    [reflexivity|].
  rewrite SFcompare_finite, lex_compare_refl. destruct s; reflexivity.
Qed.

Lemma F32_ltb_finite (s1 s2 : bool) (m1 m2 : positive) (e1 e2 : Z) :
  F32.ltb (S754_finite s1 m1 e1) (S754_finite s2 m2 e2) = true <->
  match s1, s2 with
  | true, false => True
  | false, true => False
  | false, false => e1 < e2 \/ (e1 = e2 /\ (m1 < m2)%positive)
  | true, true => e2 < e1 \/ (e1 = e2 /\ (m2 < m1)%positive)
  end.
Proof.
  unfold F32.ltb. rewrite SFcompare_finite.
  destruct s1, s2.
  - rewrite <- lex_compare_Gt, <- lex_compare_opp_Lt.
    destruct (CompOpp (lex_compare e1 m1 e2 m2)); split; congruence.
  - tauto.
  - split; [discriminate|tauto].
  - rewrite <- lex_compare_Lt.
    destruct (lex_compare e1 m1 e2 m2); split; congruence.
Qed.

Lemma F32_gtb_finite (s1 s2 : bool) (m1 m2 : positive) (e1 e2 : Z) :
  F32.gtb (S754_finite s1 m1 e1) (S754_finite s2 m2 e2) = true <->
  match s1, s2 with
  | true, false => False
  | false, true => True
  | false, false => e2 < e1 \/ (e1 = e2 /\ (m2 < m1)%positive)
  | true, true => e1 < e2 \/ (e1 = e2 /\ (m1 < m2)%positive)
  end.
Proof.
  unfold F32.gtb. rewrite SFcompare_finite.
  destruct s1, s2.
  - rewrite <- lex_compare_Lt, <- lex_compare_opp_Gt.
    destruct (CompOpp (lex_compare e1 m1 e2 m2)); split; congruence.
  - split; [discriminate|tauto].
  - tauto.
  - rewrite <- lex_compare_Gt.
    destruct (lex_compare e1 m1 e2 m2); split; congruence.
Qed.

Lemma F32_ltb_trans (a b c : f32) :
  F32.ltb a b = true -> F32.ltb b c = true -> F32.ltb a c = true.
Proof.
  destruct a as [sa|sa| |sa ma ea], b as [sb|sb| |sb mb eb],
           c as [sc|sc| |sc mc ec];
    try (cbn; discriminate);
    try (destruct sa, sb, sc; cbn; first [discriminate|reflexivity]);
    try (destruct sa, sb; cbn; first [discriminate|reflexivity]);
    try (destruct sa, sc; cbn; first [discriminate|reflexivity]);
    try (destruct sb, sc; cbn; first [discriminate|reflexivity]).
  all: rewrite ?F32_ltb_finite.
  all: try (destruct sa, sb, sc; cbn; intros; try discriminate; try reflexivity; try tauto; lia).
Qed.

Lemma F32_gtb_trans (a b c : f32) :
  F32.gtb a b = true -> F32.gtb b c = true -> F32.gtb a c = true.
Proof.
  destruct a as [sa|sa| |sa ma ea], b as [sb|sb| |sb mb eb],
           c as [sc|sc| |sc mc ec];
    try (cbn; discriminate);
    try (destruct sa, sb, sc; cbn; first [discriminate|reflexivity]);
    try (destruct sa, sb; cbn; first [discriminate|reflexivity]);
    try (destruct sa, sc; cbn; first [discriminate|reflexivity]);
    try (destruct sb, sc; cbn; first [discriminate|reflexivity]).
  all: rewrite ?F32_gtb_finite.
  all: try (destruct sa, sb, sc; cbn; intros; try discriminate; try reflexivity; try tauto; lia).
Qed.

#[export] Instance float_order : SampleOrder float.
Proof.
  split.
  - exact F32_ltb_irrefl.
  - exact F32_ltb_trans.
  - exact F32_gtb_irrefl.
  - exact F32_gtb_trans.
Qed.

Section Properties.

Context {T : Type} `{SampleType T}.
Variable N : Z.

Local Abbreviation SP := (SignalProcessor T).

(** *** Constructor *)

(** What the member initialiser list does set. *)
Lemma ctor_initialised (mem : SP) :
  let s := SignalProcessor_ctor mem in
  count_ s = 0 /\ index_ s = 0 /\
  sum_ s = F32.zero /\ sumSq_ s = F32.zero /\
  minVal_ s = T_zero /\ maxVal_ s = T_zero /\ needRecalcMinMax_ s = false /\
  ema_ s = F32.zero /\ lastValue_ s = T_zero /\ lastTimeMs_ s = 0 /\
  derivative_ s = F32.zero /\ derivativeFiltered_ s = F32.zero /\
  integrator_ s = F32.zero /\ lastIntegrandValue_ s = F32.zero /\
  alphaEma_ s = F32.c0_1 /\ alphaDerivFilter_ s = F32.c0_2 /\
  alphaLowpass_ s = F32.c0_1.
Proof. cbn. repeat split. Qed.

(** The literals 0.1f, 0.2f and 0.001f are the floats nearest to 1/10, 2/10
    and 1/1000. *)
Lemma literals_correctly_rounded :
  F32.c0_1 = F32.div (F32.of_Z 1) (F32.of_Z 10) /\
  F32.c0_2 = F32.div (F32.of_Z 2) (F32.of_Z 10) /\
  F32.c0_001 = F32.div (F32.of_Z 1) (F32.of_Z 1000) /\
  F32.one = F32.of_Z 1 /\
  F32.half = F32.div (F32.of_Z 1) (F32.of_Z 2) /\
  F32.c100 = F32.of_Z 100.
Proof. vm_compute. repeat split. Qed.

(** *** The low-pass coefficient *)

Lemma same_but_lowpass_fields (s1 s2 : SP) :
  same_but_lowpass s1 s2 ->
  store_state s1 = store_state s2 /\ rate_state s1 = rate_state s2 /\
  derivativePeriodMs_ s1 = derivativePeriodMs_ s2 /\
  useEmaFilteredValueForDerivation_ s1 = useEmaFilteredValueForDerivation_ s2 /\
  alphaEma_ s1 = alphaEma_ s2 /\ alphaDerivFilter_ s1 = alphaDerivFilter_ s2.
Proof.
  destruct s1, s2. unfold same_but_lowpass, setLowpassAlpha. cbn.
  intros E. injection E as -> -> -> -> -> -> -> -> -> -> -> -> -> -> -> -> -> -> ->.
  repeat split.
Qed.

Lemma same_but_lowpass_step (s1 s2 : SP) (o : Op T) :
  same_but_lowpass s1 s2 -> same_but_lowpass (step N s1 o) (step N s2 o).
Proof.
  destruct s1, s2. unfold same_but_lowpass, setLowpassAlpha. cbn.
  intros E. injection E as -> -> -> -> -> -> -> -> -> -> -> -> -> -> -> -> -> -> ->.
  destruct o; cbn; try reflexivity.
  all: unfold refresh, recalculateMinMax; cbn;
    destruct needRecalcMinMax_1; cbn; try reflexivity;
    destruct (count_1 =? 0); reflexivity.
Qed.

Lemma same_but_lowpass_run (ops : list (Op T)) (s1 s2 : SP) :
  same_but_lowpass s1 s2 -> same_but_lowpass (run N ops s1) (run N ops s2).
Proof.
  revert s1 s2. induction ops as [|o ops IH]; intros s1 s2 E; [exact E|].
  cbn. apply IH. now apply same_but_lowpass_step.
Qed.

Lemma same_but_lowpass_observe (q : Query T) (s1 s2 : SP) :
  same_but_lowpass s1 s2 -> observe N q s1 = observe N q s2.
Proof.
  destruct s1, s2. unfold same_but_lowpass, setLowpassAlpha. cbn.
  intros E. injection E as -> -> -> -> -> -> -> -> -> -> -> -> -> -> -> -> -> -> ->.
  destruct q; cbn; try reflexivity.
  all: unfold refresh, recalculateMinMax; cbn;
    destruct needRecalcMinMax_1; cbn; try reflexivity;
    destruct (count_1 =? 0); reflexivity.
Qed.

(** C4.  The header stores the low-pass coefficient and nothing else: no
    member holds a low-pass output, [add] never reads [alphaLowpass_], and
    whatever the coefficient is set to, every query answers the same after
    every sequence of calls.  There is no [getLowpass()]. *)
Theorem lowpass_alpha_never_read (ops : list (Op T)) (s : SP) (alpha : f32)
  (q : Query T) :
  observe N q (run N ops (setLowpassAlpha alpha s)) = observe N q (run N ops s).
Proof.
  apply same_but_lowpass_observe, same_but_lowpass_run.
  destruct s; reflexivity.
Qed.

(** *** The guard of the rate module *)

Lemma rate_gate_closed (s : SP) (timeMs : Z) :
  timeMs = 0 \/ elapsed s timeMs <= derivativePeriodMs_ s ->
  rate_gate s timeMs = false.
Proof.
  unfold rate_gate. intros [-> | Hle]; [reflexivity|].
  apply andb_false_iff. right. apply Z.ltb_ge. exact Hle.
Qed.

Lemma rate_gate_open (s : SP) (timeMs : Z) :
  0 < timeMs -> derivativePeriodMs_ s < elapsed s timeMs ->
  rate_gate s timeMs = true.
Proof.
  unfold rate_gate. intros Ht Hp.
  apply andb_true_iff. split; apply Z.ltb_lt; assumption.
Qed.

(** C5.  When [timeMs] is 0, or the elapsed time (the [uint32_t] difference
    [timeMs - lastTimeMs_]) does not exceed the period, [add] leaves the six
    members of the rate module and the configuration as they were, and
    still stores the sample: the cell at [index_] holds it, the count grows
    until it is [N], the index advances and wraps at [N], the evicted cell
    is subtracted from both sums before the sample is added, the EMA is
    seeded or advanced, and the min/max members take the seed, the fast
    update or the stale mark.  None of these values depends on [timeMs]. *)
Theorem add_gate_closed_frame (s : SP) (value : T) (timeMs : Z) :
  timeMs = 0 \/ elapsed s timeMs <= derivativePeriodMs_ s ->
  let s' := add N s value timeMs in
  let full := count_ s =? N in
  let evicted := default T_zero (buffer_ s !! Z.to_nat (index_ s)) in
  let old := to_float evicted in
  let v := to_float value in
  let stale :=
    if full
    then T_eqb evicted (minVal_ s) || T_eqb evicted (maxVal_ s)
         || needRecalcMinMax_ s
    else needRecalcMinMax_ s in
  rate_state s' = rate_state s /\
  config_state s' = config_state s /\
  buffer_ s' = <[Z.to_nat (index_ s) := value]> (buffer_ s) /\
  count_ s' = (if full then count_ s else (count_ s + 1) mod 65536) /\
  index_ s' = (if N <=? (index_ s + 1) mod 65536
               then 0 else (index_ s + 1) mod 65536) /\
  sum_ s' = F32.add (if full then F32.sub (sum_ s) old else sum_ s) v /\
  sumSq_ s' = F32.add (if full then F32.sub (sumSq_ s) (F32.mul old old)
                       else sumSq_ s)
                      (F32.mul v v) /\
  ema_ s' = (if count_ s' =? 1 then v
             else F32.add (F32.mul (alphaEma_ s) v)
                          (F32.mul (F32.sub F32.one (alphaEma_ s))
                                   (ema_ s))) /\
  needRecalcMinMax_ s' = (if count_ s' =? 1 then false else stale) /\
  minVal_ s' = (if count_ s' =? 1 then value
                else if stale then minVal_ s
                else if T_ltb value (minVal_ s) then value else minVal_ s) /\
  maxVal_ s' = (if count_ s' =? 1 then value
                else if stale then maxVal_ s
                else if T_gtb value (maxVal_ s) then value else maxVal_ s).
Proof.
  intros Hclosed. apply rate_gate_closed in Hclosed.
  unfold rate_state, config_state, add, ema_next, buf_set, buf_at, u16.
  cbn. rewrite Hclosed.
  destruct (count_ s =? N);
    destruct (T_eqb (default T_zero (buffer_ s !! Z.to_nat (index_ s)))
                    (minVal_ s));
    destruct (T_eqb (default T_zero (buffer_ s !! Z.to_nat (index_ s)))
                    (maxVal_ s));
    destruct (needRecalcMinMax_ s);
    cbn; repeat split.
Qed.

(** C10.  A timestamp below [lastTimeMs_] is not rejected: the elapsed time
    is [timeMs - lastTimeMs_ + 2^32], and when that exceeds the period the
    rate module runs with [dt = (float)(timeMs - lastTimeMs_ + 2^32) * 0.001f]
    and records [timeMs]. *)
Theorem add_wrapped_timestamp (s : SP) (value : T) (timeMs : Z) :
  0 < timeMs < lastTimeMs_ s ->
  lastTimeMs_ s < 4294967296 ->
  derivativePeriodMs_ s < timeMs - lastTimeMs_ s + 4294967296 ->
  let wrapped := (timeMs - lastTimeMs_ s) mod 4294967296 in
  let dt := F32.mul (F32.of_Z wrapped) F32.c0_001 in
  let s' := add N s value timeMs in
  wrapped = timeMs - lastTimeMs_ s + 4294967296 /\
  elapsed s timeMs = wrapped /\
  rate_gate s timeMs = true /\
  derivative_ s' =
    F32.div (int_minus (selected_val s (ema_ s') value) (lastValue_ s)) dt /\
  lastTimeMs_ s' = timeMs /\
  lastIntegrandValue_ s' = to_float value /\
  lastValue_ s' = of_int (selected_val s (ema_ s') value).
Proof.
  intros Ht Hlast Hperiod wrapped dt s'.
  assert (Hw : wrapped = timeMs - lastTimeMs_ s + 4294967296).
  { unfold wrapped.
    rewrite <- (Z.mod_add _ 1 4294967296) by lia.
    apply Z.mod_small. lia. }
  assert (He : elapsed s timeMs = wrapped) by reflexivity.
  assert (Hg : rate_gate s timeMs = true).
  { apply rate_gate_open; [lia|]. rewrite He, Hw. exact Hperiod. }
  assert (Hpos : (0 <? timeMs) = true) by (apply Z.ltb_lt; lia).
  subst s'. unfold add. cbn. rewrite Hg, Hpos.
  repeat split; try assumption.
Qed.

(** *** Shape of the object *)

Hypothesis N_range : 2 <= N <= 65535.

Lemma wf_ctor (mem : SP) :
  length (buffer_ mem) = Z.to_nat N -> wf N (SignalProcessor_ctor mem).
Proof. intros Hlen. unfold wf. cbn. repeat split; first [exact Hlen | lia]. Qed.

Lemma wf_refresh (s : SP) : wf N s -> wf N (refresh s).
Proof.
  unfold refresh, recalculateMinMax.
  destruct (needRecalcMinMax_ s); [|trivial].
  destruct (count_ s =? 0); trivial.
Qed.

Lemma count_after_add (s : SP) (value : T) (timeMs : Z) :
  wf N s ->
  count_ (add N s value timeMs) = Z.min (count_ s + 1) N.
Proof.
  intros (_ & Hc & _ & _). unfold add. cbn.
  destruct (Z.eqb_spec (count_ s) N) as [E|E]; [lia|].
  unfold u16. rewrite Z.mod_small by lia. lia.
Qed.

Lemma index_after_add (s : SP) (value : T) (timeMs : Z) :
  wf N s ->
  index_ (add N s value timeMs)
  = if index_ s + 1 <? N then index_ s + 1 else 0.
Proof.
  intros (_ & _ & Hi & _). unfold add. cbn.
  unfold u16. rewrite Z.mod_small by lia.
  destruct (Z.leb_spec N (index_ s + 1)), (Z.ltb_spec (index_ s + 1) N);
    lia.
Qed.

Lemma wf_add (s : SP) (value : T) (timeMs : Z) :
  wf N s -> wf N (add N s value timeMs).
Proof.
  intros Hwf.
  pose proof (count_after_add s value timeMs Hwf) as Hc.
  pose proof (index_after_add s value timeMs Hwf) as Hi.
  destruct Hwf as (Hlen & Hcnt & Hidx & Hfill).
  unfold wf. rewrite Hc, Hi. repeat split.
  - unfold add, buf_set. cbn. rewrite length_insert. exact Hlen.
  - lia.
  - lia.
  - destruct (Z.ltb_spec (index_ s + 1) N); lia.
  - destruct (Z.ltb_spec (index_ s + 1) N); lia.
  - intros Hlt. destruct (Z.ltb_spec (index_ s + 1) N); lia.
Qed.

Lemma wf_step (s : SP) (o : Op T) : wf N s -> wf N (step N s o).
Proof.
  intros Hwf. destruct o; cbn; try exact Hwf.
  - now apply wf_add.
  - destruct Hwf as (Hlen & _). unfold wf. cbn.
    repeat split; first [exact Hlen | lia].
  - now apply wf_refresh.
  - now apply wf_refresh.
  - now apply wf_refresh.
Qed.

Lemma wf_run (ops : list (Op T)) (s : SP) : wf N s -> wf N (run N ops s).
Proof.
  revert s. induction ops as [|o ops IH]; intros s Hwf; [exact Hwf|].
  cbn. apply IH. now apply wf_step.
Qed.

(** C7.  On a call that passes the guard the integrand is always the raw
    sample [(float)value], whatever the derivative-input flag says; the
    trapezoid [0.5f * (lastIntegrandValue_ + (float)value) * dt] is added
    exactly when the buffer already held a sample before the call, and
    [lastIntegrandValue_] becomes [(float)value] in both cases. *)
Theorem add_integrates_raw_sample (s : SP) (value : T) (timeMs : Z) :
  wf N s ->
  rate_gate s timeMs = true ->
  let s' := add N s value timeMs in
  lastIntegrandValue_ s' = to_float value /\
  integrator_ s' =
    if 0 <? count_ s
    then F32.add (integrator_ s)
                 (F32.mul (F32.mul F32.half
                                   (F32.add (lastIntegrandValue_ s)
                                            (to_float value)))
                          (rate_dt s timeMs))
    else integrator_ s.
Proof.
  intros Hwf Hg s'.
  pose proof (count_after_add s value timeMs Hwf) as Hc.
  destruct Hwf as (_ & Hcnt & _ & _).
  subst s'. unfold add in *. cbn in *. rewrite Hg. split; [reflexivity|].
  rewrite Hc.
  destruct (Z.ltb_spec 1 (Z.min (count_ s + 1) N)),
           (Z.ltb_spec 0 (count_ s)); try reflexivity; lia.
Qed.

(** C8.  On a call that passes the guard the smoothed derivative is set to
    the raw derivative when at most two samples are resident once the sample
    is stored (the buffer held at most one before, or [N = 2]); otherwise it
    becomes [alphaDerivFilter_ * raw + (1 - alphaDerivFilter_) * previous].
    The count is that of the buffer, not of the samples that passed the
    guard. *)
Theorem add_smooths_by_buffer_count (s : SP) (value : T) (timeMs : Z) :
  wf N s ->
  rate_gate s timeMs = true ->
  let s' := add N s value timeMs in
  derivative_ s' = raw_derivative s (ema_ s') value timeMs /\
  derivativeFiltered_ s' =
    if (count_ s <=? 1) || (N =? 2)
    then derivative_ s'
    else F32.add (F32.mul (alphaDerivFilter_ s) (derivative_ s'))
                 (F32.mul (F32.sub F32.one (alphaDerivFilter_ s))
                          (derivativeFiltered_ s)).
Proof.
  intros Hwf Hg s'.
  pose proof (count_after_add s value timeMs Hwf) as Hc.
  destruct Hwf as (_ & Hcnt & _ & _).
  subst s'. unfold add in *. cbn in *. rewrite Hg. split; [reflexivity|].
  rewrite Hc.
  destruct (Z.leb_spec (Z.min (count_ s + 1) N) 2),
           (Z.leb_spec (count_ s) 1), (Z.eqb_spec N 2);
    cbn; try reflexivity; lia.
Qed.

(** *** Standard deviation *)

(** Nothing clamps the variance: whenever it is negative, [getStdDev] is
    NaN. *)
Theorem getStdDev_unclamped (s : SP) :
  F32.ltb (getVariance s) F32.zero = true ->
  getStdDev s = F32.sqrt (getVariance s) /\
  getStdDev s = S754_nan.
Proof.
  unfold getStdDev. intros Hneg. split; [reflexivity|].
  destruct (getVariance s) as [sg|sg| |sg m e]; cbn in Hneg;
    try discriminate.
  - destruct sg; [reflexivity|discriminate].
  - destruct sg; [reflexivity|discriminate].
Qed.

(** *** The resident window *)

Lemma buf_at_lookup (b : list T) (i : Z) (x : T) :
  b !! Z.to_nat i = Some x -> buf_at b i = x.
Proof. unfold buf_at. now intros ->. Qed.

Lemma buf_at_middle (b : list T) (i : Z) :
  (Z.to_nat i < length b)%nat ->
  b = take (Z.to_nat i) b ++ buf_at b i :: drop (S (Z.to_nat i)) b.
Proof.
  intros Hlt. destruct (lookup_lt_is_Some_2 b _ Hlt) as [x Hx].
  rewrite (buf_at_lookup _ _ _ Hx). symmetry. now apply take_drop_middle.
Qed.

Lemma buf_set_middle (b : list T) (i : Z) (v : T) :
  (Z.to_nat i < length b)%nat ->
  buf_set b i v = take (Z.to_nat i) b ++ v :: drop (S (Z.to_nat i)) b.
Proof. intros Hlt. unfold buf_set. now apply insert_take_drop. Qed.

(** While the buffer fills, the new sample is appended to the window. *)
Lemma resident_add_filling (s : SP) (value : T) (timeMs : Z) :
  wf N s -> count_ s < N ->
  resident (add N s value timeMs) = resident s ++ [value].
Proof.
  intros Hwf Hlt.
  pose proof (count_after_add s value timeMs Hwf) as Hc.
  destruct Hwf as (Hlen & Hcnt & Hidx & Hfill).
  unfold resident. rewrite Hc.
  replace (Z.min (count_ s + 1) N) with (count_ s + 1) by lia.
  unfold add. cbn. rewrite (Hfill Hlt).
  replace (Z.to_nat (count_ s + 1)) with (S (Z.to_nat (count_ s))) by lia.
  rewrite buf_set_middle by lia.
  rewrite take_app_ge by (rewrite length_take; lia).
  rewrite length_take.
  replace (S (Z.to_nat (count_ s)) - Z.to_nat (count_ s) `min` length (buffer_ s))%nat
    with 1%nat by lia.
  reflexivity.
Qed.

(** Once the buffer is full, the new sample replaces the cell at [index_]. *)
Lemma resident_full (s : SP) :
  wf N s -> count_ s = N ->
  resident s = take (Z.to_nat (index_ s)) (buffer_ s)
               ++ buf_at (buffer_ s) (index_ s)
               :: drop (S (Z.to_nat (index_ s))) (buffer_ s).
Proof.
  intros (Hlen & Hcnt & Hidx & Hfill) Hfull.
  unfold resident. rewrite take_ge by lia. apply buf_at_middle. lia.
Qed.

Lemma resident_add_full (s : SP) (value : T) (timeMs : Z) :
  wf N s -> count_ s = N ->
  resident (add N s value timeMs)
  = take (Z.to_nat (index_ s)) (buffer_ s)
    ++ value :: drop (S (Z.to_nat (index_ s))) (buffer_ s).
Proof.
  intros Hwf Hfull.
  pose proof (count_after_add s value timeMs Hwf) as Hc.
  destruct Hwf as (Hlen & Hcnt & Hidx & Hfill).
  unfold resident. rewrite Hc.
  replace (Z.min (count_ s + 1) N) with N by lia.
  unfold add. cbn.
  rewrite take_ge by (unfold buf_set; rewrite length_insert; lia).
  apply buf_set_middle. lia.
Qed.

Lemma resident_refresh (s : SP) : resident (refresh s) = resident s.
Proof.
  unfold refresh, recalculateMinMax.
  destruct (needRecalcMinMax_ s); [|reflexivity].
  destruct (count_ s =? 0); reflexivity.
Qed.

(** *** Exact sums *)
















(** On eviction the contribution of the evicted sample is subtracted before
    the new sample is added. *)
Lemma add_evicts_then_adds (s : SP) (value : T) (timeMs : Z) :
  count_ s = N ->
  let old := to_float (buf_at (buffer_ s) (index_ s)) in
  sum_ (add N s value timeMs)
  = F32.add (F32.sub (sum_ s) old) (to_float value) /\
  sumSq_ (add N s value timeMs)
  = F32.add (F32.sub (sumSq_ s) (F32.mul old old))
            (F32.mul (to_float value) (to_float value)).
Proof. intros Hfull. unfold add. cbn. rewrite Hfull, Z.eqb_refl. split; reflexivity. Qed.


(** *** Extrema for an irreflexive, transitive comparison *)

Section Least.

Variable lt : T -> T -> bool.
Hypothesis lt_irrefl : forall a, lt a a = false.
Hypothesis lt_trans :
  forall a b c, lt a b = true -> lt b c = true -> lt a c = true.

Lemma is_least_singleton (v : T) : is_least lt v [v].
Proof.
  split; [now apply list_elem_of_singleton|].
  intros x ->%list_elem_of_singleton. apply lt_irrefl.
Qed.

(** Nothing below [m] is below anything that is below [m]. *)
Lemma not_below_pick (m v x : T) :
  lt x m = false -> lt x (pick lt m v) = false.
Proof.
  intros Hx. unfold pick. destruct (lt v m) eqn:Hv; [|exact Hx].
  destruct (lt x v) eqn:Hxv; [|reflexivity].
  rewrite (lt_trans _ _ _ Hxv Hv) in Hx. discriminate.
Qed.

(** Offering [v] to the running extremum [m] of [l] gives the extremum of
    any list [l'] made of [v] and elements of [l], as long as [m] itself
    stays in [l'] when it wins. *)
Lemma is_least_pick (m v : T) (l l' : list T) :
  is_least lt m l ->
  v ∈ l' ->
  (forall x, x ∈ l' -> x = v \/ x ∈ l) ->
  (lt v m = false -> m ∈ l') ->
  is_least lt (pick lt m v) l'.
Proof.
  intros [Hin Hle] Hv Hsub Hkeep. split.
  - unfold pick. destruct (lt v m); [exact Hv|now apply Hkeep].
  - intros x Hx. destruct (Hsub x Hx) as [->|Hxl].
    + unfold pick. destruct (lt v m) eqn:E; [apply lt_irrefl|exact E].
    + apply not_below_pick. now apply Hle.
Qed.

Lemma is_least_snoc (m v : T) (l : list T) :
  is_least lt m l -> is_least lt (pick lt m v) (l ++ [v]).
Proof.
  intros Hm. apply (is_least_pick m v l); [exact Hm| | |].
  - apply elem_of_app. right. now apply list_elem_of_singleton.
  - intros x [Hx|Hx%list_elem_of_singleton]%elem_of_app; auto.
  - intros _. apply elem_of_app. left. apply Hm.
Qed.

(** Replacing a cell other than the one holding the extremum. *)
Lemma is_least_replace (m v old : T) (l1 l2 : list T) :
  is_least lt m (l1 ++ old :: l2) ->
  m <> old ->
  is_least lt (pick lt m v) (l1 ++ v :: l2).
Proof.
  intros Hm Hne. apply (is_least_pick m v (l1 ++ old :: l2)); [exact Hm| | |].
  - apply elem_of_app. right. apply elem_of_cons. now left.
  - intros x [Hx|[->|Hx]%elem_of_cons]%elem_of_app; auto; right;
      apply elem_of_app; [now left|right; apply elem_of_cons; now right].
  - intros _. destruct Hm as [Hin _].
    apply elem_of_app in Hin as [Hin|[->|Hin]%elem_of_cons];
      [apply elem_of_app; now left|contradiction|].
    apply elem_of_app. right. apply elem_of_cons. now right.
Qed.

Lemma is_least_fold (cells seen : list T) (m : T) :
  is_least lt m seen ->
  is_least lt (fold_left (pick lt) cells m) (seen ++ cells).
Proof.
  revert seen m. induction cells as [|b cells IH]; intros seen m Hm.
  - now rewrite app_nil_r.
  - cbn. replace (seen ++ b :: cells) with ((seen ++ [b]) ++ cells)
      by now rewrite <- app_assoc.
    apply IH. now apply is_least_snoc.
Qed.

Lemma is_least_perm (m : T) (l l' : list T) :
  l ≡ₚ l' -> is_least lt m l -> is_least lt m l'.
Proof.
  intros Hp [Hin Hle]. split.
  - now rewrite <- Hp.
  - intros x Hx. apply Hle. now rewrite Hp.
Qed.

End Least.

(** *** The rescan *)

Lemma scan_cells (b : list T) (count : Z) :
  0 < count -> (Z.to_nat count <= length b)%nat ->
  scan b count
  = fold_left scan_step (drop 1 (take (Z.to_nat count) b))
              (buf_at b 0, buf_at b 0).
Proof.
  intros Hpos Hlen. unfold scan.
  assert (E : drop 1 (take (Z.to_nat count) b)
              = (fun i => buf_at b (Z.of_nat i)) <$> seq 1 (Z.to_nat count - 1)).
  { apply list_eq. intros i.
    rewrite lookup_drop, list_lookup_fmap.
    destruct (decide (i < Z.to_nat count - 1)%nat) as [Hi|Hi].
    - rewrite lookup_take_lt by lia. rewrite lookup_seq_lt by exact Hi.
      cbn. unfold buf_at. rewrite Nat2Z.id.
      destruct (lookup_lt_is_Some_2 b (S i)) as [x Hx]; [lia|].
      now rewrite Hx.
    - rewrite lookup_take_ge by lia. rewrite lookup_seq_ge by lia.
      reflexivity. }
  rewrite E. generalize (seq 1 (Z.to_nat count - 1)) (buf_at b 0, buf_at b 0).
  intros idx. induction idx as [|i idx IH]; intros acc; [reflexivity|].
  cbn. apply IH.
Qed.

Lemma fold_scan_step (cells : list T) (mn mx : T) :
  fold_left scan_step cells (mn, mx)
  = (fold_left (pick T_ltb) cells mn, fold_left (pick T_gtb) cells mx).
Proof.
  revert mn mx. induction cells as [|b cells IH]; intros mn mx; [reflexivity|].
  cbn. apply IH.
Qed.

Context `{!SampleOrder T}.

Lemma scan_extrema (b : list T) (count : Z) :
  0 < count -> (Z.to_nat count <= length b)%nat ->
  is_min (fst (scan b count)) (take (Z.to_nat count) b) /\
  is_max (snd (scan b count)) (take (Z.to_nat count) b).
Proof.
  intros Hpos Hlen. rewrite scan_cells by assumption.
  rewrite fold_scan_step. cbn.
  assert (E : take (Z.to_nat count) b
              = [buf_at b 0] ++ drop 1 (take (Z.to_nat count) b)).
  { destruct b as [|x b]; [cbn in Hlen; lia|].
    destruct (Z.to_nat count) as [|n] eqn:En; [lia|]. reflexivity. }
  set (cells := drop 1 (take (Z.to_nat count) b)) in *.
  rewrite E. split.
  - apply is_least_fold; [apply T_ltb_irrefl|apply T_ltb_trans|].
    apply is_least_singleton. apply T_ltb_irrefl.
  - apply is_least_fold; [apply T_gtb_irrefl|apply T_gtb_trans|].
    apply is_least_singleton. apply T_gtb_irrefl.
Qed.

Lemma tracked_refresh (s : SP) :
  wf N s -> tracked s ->
  0 < count_ s ->
  is_min (minVal_ (refresh s)) (resident s) /\
  is_max (maxVal_ (refresh s)) (resident s).
Proof.
  intros (Hlen & Hcnt & _) Htr Hpos. unfold refresh.
  destruct (needRecalcMinMax_ s) eqn:Hneed; [|now apply Htr].
  unfold recalculateMinMax.
  destruct (Z.eqb_spec (count_ s) 0) as [|_]; [lia|]. cbn.
  apply scan_extrema; lia.
Qed.

Lemma tracked_after_refresh (s : SP) :
  wf N s -> tracked s -> tracked (refresh s).
Proof.
  intros Hwf Htr _ Hpos.
  assert (Hc : count_ (refresh s) = count_ s).
  { unfold refresh, recalculateMinMax. destruct (needRecalcMinMax_ s); [|reflexivity].
    destruct (count_ s =? 0); reflexivity. }
  rewrite resident_refresh. rewrite Hc in Hpos. now apply tracked_refresh.
Qed.

(** *** The window in order of arrival *)

Lemma lastn_all (n : nat) (l : list T) :
  (length l <= n)%nat -> lastn n l = l.
Proof. intros Hle. unfold lastn. now replace (length l - n)%nat with 0%nat by lia. Qed.

Lemma lastn_snoc (n : nat) (l : list T) (v : T) :
  (1 <= n <= length l)%nat ->
  lastn n (l ++ [v]) = drop 1 (lastn n l) ++ [v].
Proof.
  intros Hn. unfold lastn. rewrite length_app. cbn.
  rewrite drop_drop, drop_app_le by lia.
  now replace (length l + 1 - n)%nat with (length l - n + 1)%nat by lia.
Qed.

Lemma length_lastn (n : nat) (l : list T) :
  length (lastn n l) = (n `min` length l)%nat.
Proof. unfold lastn. rewrite length_drop. lia. Qed.

Lemma length_resident (s : SP) :
  wf N s -> length (resident s) = Z.to_nat (count_ s).
Proof. intros (Hlen & Hcnt & _). unfold resident. rewrite length_take. lia. Qed.

Lemma length_rotated (s : SP) :
  wf N s -> length (rotated s) = Z.to_nat N.
Proof.
  intros (Hlen & _ & Hidx & _). unfold rotated.
  rewrite length_app, length_drop, length_take. lia.
Qed.

Lemma rotated_perm (s : SP) : rotated s ≡ₚ buffer_ s.
Proof.
  unfold rotated. rewrite Permutation_app_comm. now rewrite take_drop.
Qed.

Lemma chrono_length (s : SP) (h : list T) :
  wf N s -> chrono N s h ->
  Z.to_nat (count_ s) = (Z.to_nat N `min` length h)%nat.
Proof.
  intros Hwf [Hfill Hfull].
  pose proof (length_resident s Hwf) as Hr.
  pose proof (length_rotated s Hwf) as Hrot.
  destruct Hwf as (_ & Hcnt & _).
  destruct (Z.eq_dec (count_ s) N) as [E|E].
  - rewrite (Hfull E), length_lastn in Hrot. lia.
  - rewrite Hfill in Hr by lia. lia.
Qed.

Lemma chrono_add (s : SP) (h : list T) (value : T) (timeMs : Z) :
  wf N s -> chrono N s h ->
  chrono N (add N s value timeMs) (h ++ [value]).
Proof.
  intros Hwf Hch.
  pose proof (chrono_length s h Hwf Hch) as Hlh.
  pose proof (count_after_add s value timeMs Hwf) as Hc.
  pose proof (index_after_add s value timeMs Hwf) as Hi.
  pose proof (wf_add s value timeMs Hwf) as Hwf'.
  destruct Hch as [Hfill Hfull].
  destruct (Z.eq_dec (count_ s) N) as [E|E].
  - (* full: the oldest cell is overwritten *)
    split; [rewrite Hc; lia|]. intros _.
    specialize (Hfull E).
    assert (Hidx : (Z.to_nat (index_ s) < length (buffer_ s))%nat)
      by (destruct Hwf as (? & _ & ? & _); lia).
    rewrite lastn_snoc by lia. rewrite <- Hfull.
    destruct (lookup_lt_is_Some_2 _ _ Hidx) as [old Hold].
    unfold rotated at 2. rewrite (drop_S _ _ _ Hold).
    cbn [app drop]. rewrite drop_0.
    unfold rotated. rewrite Hi.
    change (buffer_ (add N s value timeMs))
      with (buf_set (buffer_ s) (index_ s) value).
    rewrite buf_set_middle by exact Hidx.
    destruct Hwf as (Hlen & _ & Hix & _).
    destruct (Z.ltb_spec (index_ s + 1) N) as [Hlt|Hge].
    + replace (Z.to_nat (index_ s + 1)) with (S (Z.to_nat (index_ s))) by lia.
      rewrite drop_app_ge by (rewrite length_take; lia).
      rewrite take_app_ge by (rewrite length_take; lia).
      rewrite length_take.
      replace (S (Z.to_nat (index_ s)) - Z.to_nat (index_ s) `min` length (buffer_ s))%nat
        with 1%nat by lia.
      cbn [drop take]. rewrite drop_0, take_0.
      now rewrite <- app_assoc.
    + cbn [Z.to_nat drop take]. rewrite app_nil_r.
      rewrite (drop_ge (buffer_ s)) by lia. now rewrite app_nil_l.
  - (* filling: the sample is appended *)
    assert (Hlt : count_ s < N) by (destruct Hwf as (_ & ? & _); lia).
    specialize (Hfill Hlt).
    pose proof (resident_add_filling s value timeMs Hwf Hlt) as Hr.
    rewrite Hfill in Hr.
    split; [intros _; exact Hr|]. intros Hfull'.
    rewrite lastn_all by (rewrite length_app; cbn; lia).
    rewrite <- Hr. unfold rotated, resident. rewrite Hi, Hfull'.
    destruct Hwf as (Hlen & _ & Hix & Hic). rewrite (Hic Hlt).
    destruct (Z.ltb_spec (count_ s + 1) N) as [Hlt'|_]; [lia|].
    cbn [Z.to_nat drop take]. rewrite app_nil_r.
    destruct Hwf' as (Hlen' & _). now rewrite take_ge by lia.
Qed.

(** *** Min/max tracking across [add] *)

Lemma add_minmax_fields (s : SP) (value : T) (timeMs : Z) :
  let full := count_ s =? N in
  let old := buf_at (buffer_ s) (index_ s) in
  let need1 :=
    if full
    then (if T_eqb old (minVal_ s) || T_eqb old (maxVal_ s)
          then true else needRecalcMinMax_ s)
    else needRecalcMinMax_ s in
  let first := count_ (add N s value timeMs) =? 1 in
  needRecalcMinMax_ (add N s value timeMs) = (if first then false else need1) /\
  minVal_ (add N s value timeMs)
  = (if first then value
     else if negb need1 then pick T_ltb (minVal_ s) value else minVal_ s) /\
  maxVal_ (add N s value timeMs)
  = (if first then value
     else if negb need1 then pick T_gtb (maxVal_ s) value else maxVal_ s).
Proof. repeat split. Qed.

Lemma self_equal_add (s : SP) (value : T) (timeMs : Z) :
  wf N s ->
  T_eqb value value = true ->
  Forall (fun v => T_eqb v v = true) (resident s) ->
  Forall (fun v => T_eqb v v = true) (resident (add N s value timeMs)).
Proof.
  intros Hwf Hv Hall.
  destruct (Z.eq_dec (count_ s) N) as [E|E].
  - rewrite (resident_add_full s value timeMs Hwf E).
    rewrite (resident_full s Hwf E) in Hall.
    apply Forall_app in Hall as [H1 H2]. apply Forall_cons in H2 as [_ H2].
    apply Forall_app. split; [exact H1|]. apply Forall_cons. now split.
  - assert (Hlt : count_ s < N) by (destruct Hwf as (_ & ? & _); lia).
    rewrite (resident_add_filling s value timeMs Hwf Hlt).
    apply Forall_app. split; [exact Hall|]. apply Forall_cons. now split.
Qed.

Lemma tracked_add (s : SP) (value : T) (timeMs : Z) :
  wf N s -> tracked s ->
  Forall (fun v => T_eqb v v = true) (resident s) ->
  tracked (add N s value timeMs).
Proof.
  intros Hwf Htr Hall.
  pose proof (count_after_add s value timeMs Hwf) as Hc.
  destruct (add_minmax_fields s value timeMs) as (Hneed & Hmin & Hmax).
  cbv zeta in Hneed, Hmin, Hmax.
  unfold tracked. rewrite Hneed, Hmin, Hmax, Hc. clear Hneed Hmin Hmax.
  assert (Hcnt : 0 <= count_ s <= N) by (destruct Hwf as (_ & ? & _); lia).
  destruct (Z.eqb_spec (count_ s) N) as [E|E].
  - (* full *)
    replace (Z.min (count_ s + 1) N) with N by lia.
    destruct (Z.eqb_spec N 1) as [|_]; [lia|].
    destruct (T_eqb (buf_at (buffer_ s) (index_ s)) (minVal_ s)) eqn:Emin;
      [cbn; discriminate|].
    destruct (T_eqb (buf_at (buffer_ s) (index_ s)) (maxVal_ s)) eqn:Emax;
      [cbn; discriminate|].
    cbn [orb]. intros Hneed _. rewrite Hneed. cbn [negb].
    destruct (Htr Hneed ltac:(lia)) as [Hmn Hmx].
    rewrite (resident_add_full s value timeMs Hwf E).
    rewrite (resident_full s Hwf E) in Hmn, Hmx, Hall.
    assert (Hself : forall m, m ∈ take (Z.to_nat (index_ s)) (buffer_ s)
                                  ++ buf_at (buffer_ s) (index_ s)
                                  :: drop (S (Z.to_nat (index_ s))) (buffer_ s) ->
                              T_eqb m m = true).
    { intros m Hm. rewrite Forall_forall in Hall. now apply Hall. }
    split.
    + apply is_least_replace with (old := buf_at (buffer_ s) (index_ s));
        [apply T_ltb_irrefl|apply T_ltb_trans|exact Hmn|].
      intros Heq. rewrite <- Heq in Emin.
      rewrite (Hself _ (proj1 Hmn)) in Emin. discriminate.
    + apply is_least_replace with (old := buf_at (buffer_ s) (index_ s));
        [apply T_gtb_irrefl|apply T_gtb_trans|exact Hmx|].
      intros Heq. rewrite <- Heq in Emax.
      rewrite (Hself _ (proj1 Hmx)) in Emax. discriminate.
  - (* filling *)
    assert (Hlt : count_ s < N) by lia.
    replace (Z.min (count_ s + 1) N) with (count_ s + 1) by lia.
    rewrite (resident_add_filling s value timeMs Hwf Hlt).
    destruct (Z.eqb_spec (count_ s + 1) 1) as [E1|E1].
    + intros _ _. assert (E0 : count_ s = 0) by lia.
      unfold resident. rewrite E0. cbn [Z.to_nat take app].
      split; apply is_least_singleton;
        [apply T_ltb_irrefl|apply T_gtb_irrefl].
    + intros Hneed _. rewrite Hneed. cbn [negb].
      destruct (Htr Hneed ltac:(lia)) as [Hmn Hmx].
      split; apply is_least_snoc; try assumption;
        first [apply T_ltb_irrefl|apply T_ltb_trans
              |apply T_gtb_irrefl|apply T_gtb_trans].
Qed.

(** The invariant behind [getMin]/[getMax]: shape, window in order of
    arrival, extrema tracked unless a rescan is owed, and no NaN resident. *)
Lemma minmax_step (s : SP) (h : list T) (o : Op T) :
  op_self_equal o ->
  wf N s /\ chrono N s h /\ tracked s /\
  Forall (fun v => T_eqb v v = true) (resident s) ->
  wf N (step N s o) /\ chrono N (step N s o) (added_step h o) /\
  tracked (step N s o) /\
  Forall (fun v => T_eqb v v = true) (resident (step N s o)).
Proof.
  intros Ho (Hwf & Hch & Htr & Hall).
  split; [now apply wf_step|].
  destruct o; cbn [step added_step getMin getMax getRange snd];
    try (split; [exact Hch|split; [exact Htr|exact Hall]]).
  - (* add *)
    split; [now apply chrono_add|].
    split; [now apply tracked_add|]. now apply self_equal_add.
  - (* reset *)
    split; [|split].
    + split; [reflexivity|]. cbn. lia.
    + intros _. cbn. lia.
    + apply Forall_nil. constructor.
  - split; [|split]; [..|rewrite resident_refresh; exact Hall].
    + unfold chrono, rotated in *. rewrite resident_refresh.
      unfold refresh, recalculateMinMax.
      destruct (needRecalcMinMax_ s); [|exact Hch].
      destruct (count_ s =? 0); exact Hch.
    + now apply tracked_after_refresh.
  - split; [|split]; [..|rewrite resident_refresh; exact Hall].
    + unfold chrono, rotated in *. rewrite resident_refresh.
      unfold refresh, recalculateMinMax.
      destruct (needRecalcMinMax_ s); [|exact Hch].
      destruct (count_ s =? 0); exact Hch.
    + now apply tracked_after_refresh.
  - split; [|split]; [..|rewrite resident_refresh; exact Hall].
    + unfold chrono, rotated in *. rewrite resident_refresh.
      unfold refresh, recalculateMinMax.
      destruct (needRecalcMinMax_ s); [|exact Hch].
      destruct (count_ s =? 0); exact Hch.
    + now apply tracked_after_refresh.
Qed.

Lemma minmax_run (ops : list (Op T)) (s : SP) (h : list T) :
  Forall op_self_equal ops ->
  wf N s /\ chrono N s h /\ tracked s /\
  Forall (fun v => T_eqb v v = true) (resident s) ->
  wf N (run N ops s) /\ chrono N (run N ops s) (fold_left added_step ops h) /\
  tracked (run N ops s) /\
  Forall (fun v => T_eqb v v = true) (resident (run N ops s)).
Proof.
  revert s h. induction ops as [|o ops IH]; intros s h Hops Hinv; [exact Hinv|].
  apply Forall_cons in Hops as [Ho Hops].
  cbn. apply IH; [exact Hops|]. now apply minmax_step.
Qed.

Lemma resident_is_window (s : SP) (h : list T) :
  wf N s -> chrono N s h -> resident s ≡ₚ lastn (Z.to_nat N) h.
Proof.
  intros Hwf Hch.
  pose proof (chrono_length s h Hwf Hch) as Hlh.
  destruct Hch as [Hfill Hfull].
  destruct (Z.eq_dec (count_ s) N) as [E|E].
  - rewrite <- (Hfull E), rotated_perm. unfold resident.
    destruct Hwf as (Hlen & _). now rewrite take_ge by lia.
  - assert (Hlt : count_ s < N) by (destruct Hwf as (_ & ? & _); lia).
    rewrite (Hfill Hlt). rewrite lastn_all; [reflexivity|].
    destruct Hwf as (_ & ? & _). lia.
Qed.

(** C2.  After any sequence of calls on a constructed object, the resident
    samples are the last [N] samples added since the last reset, and when
    there is one [getMin()] and [getMax()] return a minimum and a maximum of
    those: a resident sample that no resident sample is below (above).
    The samples are assumed equal to themselves, which rules out NaN. *)
Theorem getMin_getMax_of_last_N (mem : SP) (ops : list (Op T)) :
  length (buffer_ mem) = Z.to_nat N ->
  Forall op_self_equal ops ->
  let s := run N ops (SignalProcessor_ctor mem) in
  let window := lastn (Z.to_nat N) (added ops) in
  resident s ≡ₚ window /\
  (added ops <> [] ->
   is_min (fst (getMin s)) window /\ is_max (fst (getMax s)) window).
Proof.
  intros Hlen Hops s window.
  destruct (minmax_run ops (SignalProcessor_ctor mem) [] Hops)
    as (Hwf & Hch & Htr & _).
  { split; [now apply wf_ctor|]. split; [|split].
    - split; [reflexivity|]. cbn. lia.
    - intros _. cbn. lia.
    - apply Forall_nil. constructor. }
  fold (added ops) in Hch. fold s in Hwf, Hch, Htr.
  pose proof (resident_is_window s _ Hwf Hch) as Hperm.
  split; [exact Hperm|]. intros Hne.
  assert (Hpos : 0 < count_ s).
  { pose proof (chrono_length s _ Hwf Hch) as Hlh.
    destruct (added ops) as [|x l]; [contradiction|]. cbn in Hlh.
    destruct Hwf as (_ & ? & _). lia. }
  destruct (tracked_refresh s Hwf Htr Hpos) as [Hmn Hmx].
  split; cbn [getMin getMax fst].
  - apply is_least_perm with (l := resident s); assumption.
  - apply is_least_perm with (l := resident s); assumption.
Qed.

End Properties.

(* ===================================================================== *)
(** ** The properties on concrete objects *)
(* ===================================================================== *)

(** *** The scenarios of the specification *)

Example scenario_1_to_5 :
  let s := run 5 ops_1_to_5 (fresh 5) in
  getMean s = F32.of_Z 3 /\ fst (getMin s) = 1 /\ fst (getMax s) = 5 /\
  fst (getRange s) = F32.of_Z 4 /\ isFull 5 s = true.
Proof. vm_compute. repeat split. Qed.

Example scenario_1_to_6 :
  let s := run 5 ops_1_to_6 (fresh 5) in
  getMean s = F32.of_Z 4 /\ needRecalcMinMax_ s = true /\
  fst (getMin s) = 2 /\ fst (getMax s) = 6.
Proof. vm_compute. repeat split. Qed.

(** With every sample timestamped and one second apart the header and the
    wording of the specification agree on the rate module. *)
Example rate_module_agrees_when_all_timestamped :
  let s := run 4 ops_every_second (fresh 4) in
  let r := rate_claimed_run 4 ops_every_second (fresh 4) rate_claimed_init in
  derivative_ s = claimed_derivative r /\
  derivativeFiltered_ s = claimed_smoothed r /\
  integrator_ s = claimed_integral r.
Proof. vm_compute. repeat split. Qed.

(** *** Accumulators *)



(** *** Min/max *)

(** On [int16_t], [is_min] and [is_max] are the least and the greatest
    element. *)
Lemma int16_is_min (m : int16_t) (l : list int16_t) :
  is_min m l <-> m ∈ l /\ forall x, x ∈ l -> m <= x.
Proof.
  unfold is_min, is_least. cbn. split; intros [Hin Hle]; (split; [exact Hin|]);
    intros x Hx; specialize (Hle x Hx).
  - now apply Z.ltb_ge.
  - now apply Z.ltb_ge.
Qed.

Lemma int16_is_max (m : int16_t) (l : list int16_t) :
  is_max m l <-> m ∈ l /\ forall x, x ∈ l -> x <= m.
Proof.
  unfold is_max, is_least. cbn. split; intros [Hin Hle]; (split; [exact Hin|]);
    intros x Hx; specialize (Hle x Hx); rewrite Z.gtb_ltb in *.
  - now apply Z.ltb_ge.
  - now apply Z.ltb_ge.
Qed.

(** C2, as stated, fails on a NaN sample.  With [T = float] and capacity 2,
    after the samples NaN, 1.0 and 2.0 the window is 1.0, 2.0, but the NaN
    that seeded [minVal_] and [maxVal_] is never replaced (it compares
    false with everything) and its eviction does not mark them stale (it is
    not equal to itself): [getMin()] and [getMax()] return NaN, which is
    not in the window, and no rescan is owed. *)
Lemma getMin_getMax_stuck_on_nan :
  let s := run 2 ops_nan_first (fresh 2) in
  let window := lastn 2 (added ops_nan_first) in
  window = [F32.one; F32.of_Z 2] /\
  resident s = [F32.of_Z 2; F32.one] /\
  needRecalcMinMax_ s = false /\
  fst (getMin s) = S754_nan /\ fst (getMax s) = S754_nan /\
  ~ is_min (fst (getMin s)) window /\
  ~ is_max (fst (getMax s)) window.
Proof.
  cbv zeta.
  assert (Ew : lastn 2 (added ops_nan_first) = [F32.one; F32.of_Z 2])
    by (vm_compute; reflexivity).
  assert (Emin : fst (getMin (run 2 ops_nan_first (fresh 2))) = S754_nan)
    by (vm_compute; reflexivity).
  assert (Emax : fst (getMax (run 2 ops_nan_first (fresh 2))) = S754_nan)
    by (vm_compute; reflexivity).
  rewrite Ew, Emin, Emax.
  split; [reflexivity|]. split; [vm_compute; reflexivity|].
  split; [vm_compute; reflexivity|]. split; [reflexivity|].
  split; [reflexivity|].
  split; intros [Hin _];
    apply elem_of_cons in Hin as [Hin|Hin]; try discriminate;
    apply elem_of_cons in Hin as [Hin|Hin]; try discriminate;
    now apply elem_of_nil in Hin.
Qed.

Lemma getMin_getMax_of_last_N_witness :
  2 <= 5 <= 65535 /\
  length (buffer_ (zeroed (T:=int16_t) 5)) = Z.to_nat 5 /\
  Forall op_self_equal ops_mixed /\
  let s := run 5 ops_mixed (SignalProcessor_ctor (zeroed 5)) in
  let window := lastn (Z.to_nat 5) (added ops_mixed) in
  resident s ≡ₚ window /\
  (added ops_mixed <> [] ->
   is_min (fst (getMin s)) window /\ is_max (fst (getMax s)) window).
Proof.
  assert (HN : 2 <= 5 <= 65535) by lia.
  assert (Hlen : length (buffer_ (zeroed (T:=int16_t) 5)) = Z.to_nat 5)
    by reflexivity.
  assert (Hops : Forall op_self_equal ops_mixed)
    by (repeat constructor).
  exact (conj HN (conj Hlen (conj Hops
    (getMin_getMax_of_last_N 5 HN (zeroed 5) ops_mixed Hlen Hops)))).
Defined.

(** The window and the extrema of that run, evaluated. *)
Example mixed_run_evaluated :
  let s := run 5 ops_mixed (fresh 5) in
  added ops_mixed = [1; 2; 3; 4; 5; 6; 0; 5] /\
  lastn 5 (added ops_mixed) = [4; 5; 6; 0; 5] /\
  resident s = [6; 0; 5; 4; 5] /\
  needRecalcMinMax_ s = false /\
  fst (getMin s) = 0 /\ fst (getMax s) = 6 /\
  mean_exact s = true /\ getMean s = F32.of_Z 4.
Proof. vm_compute. repeat split. Qed.

(** *** Constructor *)

(** C3.  The constructor gives [derivativePeriodMs_] and
    [useEmaFilteredValueForDerivation_] no value: they keep what the storage
    held.  In storage where they read 500 and [true], the constructed object
    has period 500 and the flag set, and its rate module skips a first
    sample stamped 100 ms that a period of 0 lets through. *)
Theorem ctor_leaves_period_and_flag :
  (forall (T : Type) (ST : SampleType T) (mem : SignalProcessor T),
      derivativePeriodMs_ (SignalProcessor_ctor mem) = derivativePeriodMs_ mem /\
      useEmaFilteredValueForDerivation_ (SignalProcessor_ctor mem)
      = useEmaFilteredValueForDerivation_ mem) /\
  derivativePeriodMs_ (SignalProcessor_ctor stack_storage) = 500 /\
  useEmaFilteredValueForDerivation_ (SignalProcessor_ctor stack_storage) = true /\
  rate_gate (SignalProcessor_ctor stack_storage) 100 = false /\
  rate_gate (fresh (T:=float) 4) 100 = true.
Proof. split; [intros; split; reflexivity|]. vm_compute. repeat split. Qed.

(** *** Low-pass *)

(** The low-pass output the specification describes depends on the
    coefficient: for the samples 0 and 10 it is 0 with coefficient 0 and 10
    with coefficient 1.  No query of the header tells the two apart. *)
Example lowpass_output_missing :
  lowpass_claimed F32.zero [F32.zero; F32.of_Z 10] = F32.zero /\
  lowpass_claimed F32.one [F32.zero; F32.of_Z 10] = F32.of_Z 10 /\
  forall q : Query float,
    observe 4 q (run 4 [OpSetLowpassAlpha F32.zero; OpAdd F32.zero 0;
                        OpAdd (F32.of_Z 10) 0] (fresh 4))
    = observe 4 q (run 4 [OpSetLowpassAlpha F32.one; OpAdd F32.zero 0;
                          OpAdd (F32.of_Z 10) 0] (fresh 4)).
Proof.
  split; [vm_compute; reflexivity|]. split; [vm_compute; reflexivity|].
  intros q.
  change (observe 4 q (run 4 [OpAdd F32.zero 0; OpAdd (F32.of_Z 10) 0]
                           (setLowpassAlpha F32.zero (fresh 4)))
          = observe 4 q (run 4 [OpAdd F32.zero 0; OpAdd (F32.of_Z 10) 0]
                             (setLowpassAlpha F32.one (fresh 4)))).
  rewrite !same_but_lowpass_observe
    with (s2 := run 4 [OpAdd F32.zero 0; OpAdd (F32.of_Z 10) 0] (fresh 4));
    try reflexivity; apply same_but_lowpass_run; reflexivity.
Qed.

(** *** Rate module *)

Lemma add_gate_closed_frame_witness :
  let s := run 4 ops_period_10 (fresh 4) in
  (1005 = 0 \/ elapsed s 1005 <= derivativePeriodMs_ s) /\
  let s' := add 4 s 2 1005 in
  let full := count_ s =? 4 in
  let evicted := default T_zero (buffer_ s !! Z.to_nat (index_ s)) in
  let old := to_float evicted in
  let v := to_float (2 : int16_t) in
  let stale :=
    if full
    then T_eqb evicted (minVal_ s) || T_eqb evicted (maxVal_ s)
         || needRecalcMinMax_ s
    else needRecalcMinMax_ s in
  rate_state s' = rate_state s /\
  config_state s' = config_state s /\
  buffer_ s' = <[Z.to_nat (index_ s) := 2]> (buffer_ s) /\
  count_ s' = (if full then count_ s else (count_ s + 1) mod 65536) /\
  index_ s' = (if 4 <=? (index_ s + 1) mod 65536
               then 0 else (index_ s + 1) mod 65536) /\
  sum_ s' = F32.add (if full then F32.sub (sum_ s) old else sum_ s) v /\
  sumSq_ s' = F32.add (if full then F32.sub (sumSq_ s) (F32.mul old old)
                       else sumSq_ s)
                      (F32.mul v v) /\
  ema_ s' = (if count_ s' =? 1 then v
             else F32.add (F32.mul (alphaEma_ s) v)
                          (F32.mul (F32.sub F32.one (alphaEma_ s))
                                   (ema_ s))) /\
  needRecalcMinMax_ s' = (if count_ s' =? 1 then false else stale) /\
  minVal_ s' = (if count_ s' =? 1 then 2
                else if stale then minVal_ s
                else if T_ltb 2 (minVal_ s) then 2 else minVal_ s) /\
  maxVal_ s' = (if count_ s' =? 1 then 2
                else if stale then maxVal_ s
                else if T_gtb 2 (maxVal_ s) then 2 else maxVal_ s).
Proof.
  assert (Hclosed : 1005 = 0 \/
                    elapsed (run 4 ops_period_10 (fresh 4)) 1005
                    <= derivativePeriodMs_ (run 4 ops_period_10 (fresh 4))).
  { right. vm_compute. discriminate. }
  exact (conj Hclosed
    (add_gate_closed_frame 4 (run 4 ops_period_10 (fresh 4)) 2 1005 Hclosed)).
Defined.

(** That call, evaluated: the sample 2 arrives 5 ms after the sample 1 with
    a period of 10 ms.  It is stored and counted, the statistics and the
    EMA move, and the rate module still shows the first sample. *)
Example gate_closed_evaluated :
  let s := run 4 ops_period_10 (fresh 4) in
  let s' := add 4 s 2 1005 in
  buffer_ s' = [1; 2; 0; 0] /\ count_ s' = 2 /\ index_ s' = 2 /\
  sum_ s' = F32.of_Z 3 /\ sumSq_ s' = F32.of_Z 5 /\
  minVal_ s' = 1 /\ maxVal_ s' = 2 /\
  ema_ s = F32.of_Z 1 /\
  ema_ s' = F32.add (F32.mul F32.c0_1 (F32.of_Z 2))
                    (F32.mul (F32.sub F32.one F32.c0_1) (F32.of_Z 1)) /\
  ema_ s' <> ema_ s /\
  lastTimeMs_ s' = 1000 /\ lastValue_ s' = 1 /\
  derivative_ s' = derivative_ s /\ integrator_ s' = F32.zero.
Proof. vm_compute. repeat split; discriminate. Qed.

(** C6.  With [T = float], a fresh object and the first sample 0.5 at 1 s,
    [dt] is 1.0 and the derivative the specification describes is 0.5; the
    header truncates the sample to the [int] 0 first, so its derivative is
    0.0 and [getLastValue()] is 0.0 instead of 0.5. *)
Theorem derivative_truncates_sample :
  let s := add 4 (fresh (T:=float) 4) F32.half 1000 in
  let r := rate_claimed_run 4 [OpAdd F32.half 1000] (fresh 4)
                            rate_claimed_init in
  rate_gate (fresh (T:=float) 4) 1000 = true /\
  rate_dt (fresh (T:=float) 4) 1000 = F32.one /\
  selected_val (fresh 4) (ema_ s) F32.half = 0 /\
  claimed_derivative r = F32.half /\
  getDerivative s = F32.zero /\
  getLastValue s = F32.zero /\
  getDerivative s <> claimed_derivative r.
Proof. vm_compute. repeat split; discriminate. Qed.

(** C7, as stated, fails twice.  With the flag set, samples 0.0 at 1 s and
    10.0 at 2 s: the EMA is 1.0, so the claimed trapezoid is 0.5, but the
    header integrates the raw sample and gets 5.0.  With a first sample 3
    without timestamp and a second sample 4 at 1 s, that second sample is
    the first to reach the rate module, so the claimed integral is still 0,
    but the header adds a trapezoid and gets 2.0. *)
Lemma integral_not_as_claimed :
  (let s := run 4 ops_ema_input (fresh 4) in
   let r := rate_claimed_run 4 ops_ema_input (fresh 4) rate_claimed_init in
   ema_ s = F32.one /\
   integrator_ s = F32.of_Z 5 /\ claimed_integral r = F32.half /\
   integrator_ s <> claimed_integral r) /\
  (let s := run 4 ops_late_timestamp (fresh 4) in
   let r := rate_claimed_run 4 ops_late_timestamp (fresh 4)
                             rate_claimed_init in
   reached r = 1%nat /\
   integrator_ s = F32.of_Z 2 /\ claimed_integral r = F32.zero /\
   integrator_ s <> claimed_integral r).
Proof. vm_compute. repeat split; discriminate. Qed.

Lemma add_integrates_raw_sample_witness :
  let s := run 4 ops_at_5s (fresh 4) in
  2 <= 4 <= 65535 /\ wf 4 s /\ rate_gate s 6000 = true /\
  lastIntegrandValue_ (add 4 s 3 6000) = to_float (3 : int16_t) /\
  integrator_ (add 4 s 3 6000) =
    if 0 <? count_ s
    then F32.add (integrator_ s)
                 (F32.mul (F32.mul F32.half
                                   (F32.add (lastIntegrandValue_ s)
                                            (to_float (3 : int16_t))))
                          (rate_dt s 6000))
    else integrator_ s.
Proof.
  assert (HN : 2 <= 4 <= 65535) by lia.
  assert (Hwf : wf 4 (run 4 ops_at_5s (fresh 4))).
  { apply wf_run, wf_ctor; [exact HN|exact HN|reflexivity]. }
  assert (Hg : rate_gate (run 4 ops_at_5s (fresh 4)) 6000 = true)
    by (vm_compute; reflexivity).
  exact (conj HN (conj Hwf (conj Hg
    (add_integrates_raw_sample 4 HN (run 4 ops_at_5s (fresh 4)) 3 6000
                               Hwf Hg)))).
Defined.

(** C8, as stated, fails.  After two samples without timestamp, the sample 3
    at 1 s is the first to reach the rate module: the claimed smoothed
    derivative is the raw one, 3.0, but the buffer holds three samples, so
    the header applies the recurrence to the initial 0 and gets
    0.2f * 3.0f.  With [N = 2] and three samples one second apart, the third
    is past the seeding, but the header seeds again. *)
Lemma smoothing_not_as_claimed :
  (let s := run 4 ops_third_timestamped (fresh 4) in
   let r := rate_claimed_run 4 ops_third_timestamped (fresh 4)
                             rate_claimed_init in
   derivative_ s = F32.of_Z 3 /\ claimed_smoothed r = F32.of_Z 3 /\
   derivativeFiltered_ s = F32.mul F32.c0_2 (F32.of_Z 3) /\
   derivativeFiltered_ s <> claimed_smoothed r) /\
  (let s := run 2 ops_every_second (fresh 2) in
   let r := rate_claimed_run 2 ops_every_second (fresh 2)
                             rate_claimed_init in
   derivativeFiltered_ s = F32.of_Z 2 /\
   derivativeFiltered_ s <> claimed_smoothed r).
Proof. vm_compute. repeat split; discriminate. Qed.

Lemma add_smooths_by_buffer_count_witness :
  let s := run 4 ops_at_5s (fresh 4) in
  2 <= 4 <= 65535 /\ wf 4 s /\ rate_gate s 6000 = true /\
  derivative_ (add 4 s 3 6000)
  = raw_derivative s (ema_ (add 4 s 3 6000)) 3 6000 /\
  derivativeFiltered_ (add 4 s 3 6000) =
    if (count_ s <=? 1) || (4 =? 2)
    then derivative_ (add 4 s 3 6000)
    else F32.add (F32.mul (alphaDerivFilter_ s) (derivative_ (add 4 s 3 6000)))
                 (F32.mul (F32.sub F32.one (alphaDerivFilter_ s))
                          (derivativeFiltered_ s)).
Proof.
  assert (HN : 2 <= 4 <= 65535) by lia.
  assert (Hwf : wf 4 (run 4 ops_at_5s (fresh 4))).
  { apply wf_run, wf_ctor; [exact HN|exact HN|reflexivity]. }
  assert (Hg : rate_gate (run 4 ops_at_5s (fresh 4)) 6000 = true)
    by (vm_compute; reflexivity).
  exact (conj HN (conj Hwf (conj Hg
    (add_smooths_by_buffer_count 4 HN (run 4 ops_at_5s (fresh 4)) 3 6000
                                 Hwf Hg)))).
Defined.

Lemma add_wrapped_timestamp_witness :
  let s := run 4 ops_at_5s (fresh 4) in
  0 < 1000 < lastTimeMs_ s /\
  lastTimeMs_ s < 4294967296 /\
  derivativePeriodMs_ s < 1000 - lastTimeMs_ s + 4294967296 /\
  let wrapped := (1000 - lastTimeMs_ s) mod 4294967296 in
  let dt := F32.mul (F32.of_Z wrapped) F32.c0_001 in
  let s' := add 4 s 3 1000 in
  wrapped = 1000 - lastTimeMs_ s + 4294967296 /\
  elapsed s 1000 = wrapped /\
  rate_gate s 1000 = true /\
  derivative_ s' =
    F32.div (int_minus (selected_val s (ema_ s') (3 : int16_t)) (lastValue_ s))
            dt /\
  lastTimeMs_ s' = 1000 /\
  lastIntegrandValue_ s' = to_float (3 : int16_t) /\
  lastValue_ s' = of_int (selected_val s (ema_ s') (3 : int16_t)).
Proof.
  assert (Ht : 0 < 1000 < lastTimeMs_ (run 4 ops_at_5s (fresh 4)))
    by (vm_compute; split; reflexivity).
  assert (Hl : lastTimeMs_ (run 4 ops_at_5s (fresh 4)) < 4294967296)
    by (vm_compute; reflexivity).
  assert (Hp : derivativePeriodMs_ (run 4 ops_at_5s (fresh 4))
               < 1000 - lastTimeMs_ (run 4 ops_at_5s (fresh 4)) + 4294967296)
    by (vm_compute; reflexivity).
  exact (conj Ht (conj Hl (conj Hp
    (add_wrapped_timestamp 4 (run 4 ops_at_5s (fresh 4)) 3 1000 Ht Hl Hp)))).
Defined.

(** The wrapped interval of that call, evaluated: about 49.7 days. *)
Example wrapped_timestamp_evaluated :
  let s := run 4 ops_at_5s (fresh 4) in
  elapsed s 1000 = 4294963296 /\
  rate_dt s 1000 = F32.mul (F32.of_Z 4294963296) F32.c0_001 /\
  lastTimeMs_ (add 4 s 3 1000) = 1000.
Proof. vm_compute. repeat split. Qed.

(** *** Standard deviation *)

(** C9.  [getStdDev()] takes the root of the variance without clamping it,
    and on a constant signal the variance comes out negative.  For three
    samples 4097 it is -2.0 and [getStdDev()] is NaN, where the clamped
    root is 0.  The README's own examples meet this: its sensor-quality
    check ([int16_t], capacity 300, a sensor stuck at 4097) gets a NaN
    coefficient of variation, so neither [cv < 1.0f] ("sensor might be
    stuck") nor [cv > 20.0f] fires; its calibration ([float], capacity 200,
    200 readings of 9.81f) gets a NaN standard deviation, so
    [isStable(0.02f)] is false and the calibration of a device at rest
    fails. *)
Theorem getStdDev_is_nan_on_constant_signal :
  (let s := run 5 ops_constant (fresh 5) in
   getVariance s = F32.opp (F32.of_Z 2) /\
   stddev_claimed s = F32.zero /\
   getStdDev s = S754_nan /\
   getStdDev s <> stddev_claimed s) /\
  (let s := run 300 ops_stuck_sensor (fresh 300) in
   isFull 300 s = true /\
   F32.ltb (getVariance s) F32.zero = true /\
   stddev_claimed s = F32.zero /\
   getStdDev s = S754_nan /\
   getCoefficientOfVariation s = S754_nan /\
   F32.ltb (getCoefficientOfVariation s) F32.one = false /\
   F32.gtb (getCoefficientOfVariation s) (F32.of_Z 20) = false) /\
  (let s := run 200 ops_calibration (fresh 200) in
   isFull 200 s = true /\
   F32.ltb (getVariance s) F32.zero = true /\
   stddev_claimed s = F32.zero /\
   F32.ltb (stddev_claimed s) c0_02 = true /\
   getStdDev s = S754_nan /\
   isStable 200 s c0_02 = false) /\
  c9_81 = F32.div (F32.of_Z 981) (F32.of_Z 100) /\
  c0_02 = F32.div (F32.of_Z 2) (F32.of_Z 100).
Proof. vm_compute. repeat split; discriminate. Qed.


#[export] Instance int16_total : SampleTotal int16_t.
Proof.
  split; simpl; intros.
  - apply Z.ltb_ge in H, H0. lia.
  - rewrite Z.gtb_ltb in *. apply Z.ltb_ge in H, H0. lia.
  - apply Z.eqb_refl.
Qed.

(* ===================================================================== *)
(** ** Further properties of the header *)
(* ===================================================================== *)

Section MoreProperties.

Context {T : Type} `{SampleType T}.
Variable N : Z.
Hypothesis N_range : 2 <= N <= 65535.

Local Abbreviation SP := (SignalProcessor T).

(** *** Count, write position and layout of the array *)

Lemma chrono_refresh (s : SP) (h : list T) :
  chrono N s h -> chrono N (refresh s) h.
Proof.
  unfold chrono, rotated. rewrite resident_refresh.
  unfold refresh, recalculateMinMax.
  destruct (needRecalcMinMax_ s); [|trivial].
  destruct (count_ s =? 0); trivial.
Qed.

Lemma chrono_step (s : SP) (h : list T) (o : Op T) :
  wf N s -> chrono N s h -> chrono N (step N s o) (added_step h o).
Proof.
  intros Hwf Hch.
  destruct o; cbn [step added_step getMin getMax getRange snd];
    try exact Hch; try (now apply chrono_refresh).
  - now apply chrono_add.
  - split; [reflexivity|]. cbn. lia.
Qed.

Lemma chrono_run (ops : list (Op T)) (s : SP) (h : list T) :
  wf N s -> chrono N s h ->
  chrono N (run N ops s) (fold_left added_step ops h).
Proof.
  revert s h. induction ops as [|o ops IH]; intros s h Hwf Hch; [exact Hch|].
  cbn. apply IH; [now apply wf_step|now apply chrono_step].
Qed.

Lemma chrono_ctor (mem : SP) : chrono N (SignalProcessor_ctor mem) [].
Proof. split; [reflexivity|]. cbn. lia. Qed.

Lemma index_refresh (s : SP) : index_ (refresh s) = index_ s.
Proof.
  unfold refresh, recalculateMinMax.
  destruct (needRecalcMinMax_ s); [|reflexivity].
  destruct (count_ s =? 0); reflexivity.
Qed.

Lemma count_refresh (s : SP) : count_ (refresh s) = count_ s.
Proof.
  unfold refresh, recalculateMinMax.
  destruct (needRecalcMinMax_ s); [|reflexivity].
  destruct (count_ s =? 0); reflexivity.
Qed.

Lemma index_step (s : SP) (h : list T) (o : Op T) :
  wf N s ->
  index_ s = Z.of_nat (length h) mod N ->
  index_ (step N s o) = Z.of_nat (length (added_step h o)) mod N.
Proof.
  intros Hwf Hi.
  destruct o; cbn [step added_step getMin getMax getRange snd];
    try exact Hi; try (now rewrite index_refresh).
  - rewrite (index_after_add N N_range s value timeMs Hwf).
    rewrite length_app. cbn [length].
    replace (Z.of_nat (length h + 1)) with (Z.of_nat (length h) + 1) by lia.
    rewrite Z.add_mod, <- Hi by lia.
    destruct Hwf as (_ & _ & Hidx & _).
    destruct (Z.ltb_spec (index_ s + 1) N) as [Hlt|Hge].
    + rewrite (Z.mod_small 1), (Z.mod_small (index_ s + 1)) by lia.
      reflexivity.
    + replace (index_ s + 1 mod N) with N
        by (rewrite (Z.mod_small 1) by lia; lia).
      now rewrite Z.mod_same by lia.
  - cbn. now rewrite Z.mod_0_l by lia.
Qed.

Lemma index_run (ops : list (Op T)) (s : SP) (h : list T) :
  wf N s ->
  index_ s = Z.of_nat (length h) mod N ->
  index_ (run N ops s) = Z.of_nat (length (fold_left added_step ops h)) mod N.
Proof.
  revert s h. induction ops as [|o ops IH]; intros s h Hwf Hi; [exact Hi|].
  cbn. apply IH; [now apply wf_step|now apply index_step].
Qed.

(** X1.  On a constructed object the count is the number of samples added
    since the last reset, capped at [N]; the write position is that number
    modulo [N]; [isFull()] holds from the [N]-th such sample on and
    [isEmpty()] only before the first. *)
Theorem count_and_index_follow_adds (mem : SP) (ops : list (Op T)) :
  length (buffer_ mem) = Z.to_nat N ->
  let s := run N ops (SignalProcessor_ctor mem) in
  let n := Z.of_nat (length (added ops)) in
  getCount s = Z.min n N /\
  index_ s = n mod N /\
  isFull N s = (N <=? n) /\
  isEmpty s = (n =? 0).
Proof.
  intros Hlen s n.
  pose proof (wf_ctor N N_range mem Hlen) as Hwf0.
  pose proof (wf_run N N_range ops _ Hwf0) as Hwf.
  pose proof (chrono_run ops _ [] Hwf0 (chrono_ctor mem)) as Hch.
  pose proof (chrono_length N N_range _ _ Hwf Hch) as Hc.
  fold (added ops) in Hc. fold s in Hwf, Hc.
  assert (Hcount : count_ s = Z.min n N).
  { destruct Hwf as (_ & ? & _). subst n. lia. }
  unfold getCount, isFull, isEmpty. rewrite Hcount. repeat split.
  - apply (index_run ops _ [] Hwf0). cbn. now rewrite Z.mod_0_l by lia.
  - destruct (Z.eqb_spec (Z.min n N) N), (Z.leb_spec N n); lia.
  - destruct (Z.eqb_spec (Z.min n N) 0), (Z.eqb_spec n 0); lia.
Qed.

(** X2.  Layout of the array [getBuffer()] exposes.  Until [N] samples have
    been added since the last reset, the cells from 0 hold them in order of
    arrival.  From then on the cells from [index_] to the end followed by
    the cells before [index_] are the last [N] samples in order of arrival:
    the oldest resident sample is the one at [index_]. *)
Theorem buffer_layout (mem : SP) (ops : list (Op T)) :
  length (buffer_ mem) = Z.to_nat N ->
  let s := run N ops (SignalProcessor_ctor mem) in
  let n := length (added ops) in
  (Z.of_nat n < N -> take n (getBuffer s) = added ops) /\
  (N <= Z.of_nat n ->
   drop (Z.to_nat (index_ s)) (getBuffer s)
   ++ take (Z.to_nat (index_ s)) (getBuffer s)
   = lastn (Z.to_nat N) (added ops)).
Proof.
  intros Hlen s n.
  pose proof (wf_ctor N N_range mem Hlen) as Hwf0.
  pose proof (wf_run N N_range ops _ Hwf0) as Hwf.
  pose proof (chrono_run ops _ [] Hwf0 (chrono_ctor mem)) as Hch.
  pose proof (chrono_length N N_range _ _ Hwf Hch) as Hc.
  fold (added ops) in Hc, Hch. fold s in Hwf, Hc, Hch.
  destruct Hch as [Hfill Hfull]. destruct Hwf as (_ & Hcnt & _).
  unfold getBuffer. split; intros Hn.
  - rewrite <- Hfill by (subst n; lia). unfold resident.
    f_equal. subst n. lia.
  - apply Hfull. subst n. lia.
Qed.

(** *** The empty processor *)

Lemma empty_like_step (s : SP) (o : Op T) :
  wf N s -> empty_like s -> empty_like (step N s o).
Proof.
  intros Hwf He.
  destruct o; cbn [step getMin getMax getRange snd]; try exact He.
  - intros Hc. rewrite (count_after_add N N_range s value timeMs Hwf) in Hc.
    destruct Hwf as (_ & ? & _). lia.
  - intros _. cbn. repeat split.
  - intros Hc. rewrite count_refresh in Hc. destruct (He Hc) as (?&?&?&?&Hn&?).
    unfold refresh. rewrite Hn. now apply He.
  - intros Hc. rewrite count_refresh in Hc. destruct (He Hc) as (?&?&?&?&Hn&?).
    unfold refresh. rewrite Hn. now apply He.
  - intros Hc. rewrite count_refresh in Hc. destruct (He Hc) as (?&?&?&?&Hn&?).
    unfold refresh. rewrite Hn. now apply He.
Qed.

Lemma empty_like_run (ops : list (Op T)) (s : SP) :
  wf N s -> empty_like s -> empty_like (run N ops s).
Proof.
  revert s. induction ops as [|o ops IH]; intros s Hwf He; [exact He|].
  cbn. apply IH; [now apply wf_step|now apply empty_like_step].
Qed.

Lemma empty_like_ctor (mem : SP) : empty_like (SignalProcessor_ctor mem).
Proof. intros _. cbn. repeat split. Qed.

Lemma count_zero_when_nothing_added (mem : SP) (ops : list (Op T)) :
  length (buffer_ mem) = Z.to_nat N ->
  added ops = [] ->
  count_ (run N ops (SignalProcessor_ctor mem)) = 0.
Proof.
  intros Hlen Hnil.
  pose proof (wf_ctor N N_range mem Hlen) as Hwf0.
  pose proof (wf_run N N_range ops _ Hwf0) as Hwf.
  pose proof (chrono_run ops _ [] Hwf0 (chrono_ctor mem)) as Hch.
  pose proof (chrono_length N N_range _ _ Hwf Hch) as Hc.
  fold (added ops) in Hc. rewrite Hnil in Hc. cbn in Hc.
  destruct Hwf as (_ & ? & _). lia.
Qed.

(** X3.  With no sample added since construction or the last reset, every
    statistic has its documented fallback: count, sum, mean, variance,
    standard deviation, coefficient of variation and EMA are 0, [getMin()]
    and [getMax()] return [T(0)], nothing is an outlier and the signal is
    not stable. *)
Theorem empty_processor_statistics (mem : SP) (ops : list (Op T))
  (value : T) (sigmaThreshold maxStdDev : f32) :
  length (buffer_ mem) = Z.to_nat N ->
  added ops = [] ->
  let s := run N ops (SignalProcessor_ctor mem) in
  getCount s = 0 /\ getSum s = F32.zero /\ getMean s = F32.zero /\
  getVariance s = F32.zero /\ getStdDev s = F32.zero /\
  getCoefficientOfVariation s = F32.zero /\ getEma s = F32.zero /\
  fst (getMin s) = T_zero /\ fst (getMax s) = T_zero /\
  isEmpty s = true /\ isFull N s = false /\
  isOutlier s value sigmaThreshold = false /\
  isStable N s maxStdDev = false.
Proof.
  intros Hlen Hnil s.
  pose proof (count_zero_when_nothing_added mem ops Hlen Hnil) as Hc.
  pose proof (wf_ctor N N_range mem Hlen) as Hwf0.
  destruct (empty_like_run ops _ Hwf0 (empty_like_ctor mem) Hc)
    as (Hs & Hq & Hmn & Hmx & Hn & He).
  fold s in Hc, Hs, Hq, Hmn, Hmx, Hn, He.
  assert (Hhalf : 1 <= N / 2) by (apply Z.div_le_lower_bound; lia).
  unfold getCount, getSum, getCoefficientOfVariation, getStdDev, getVariance,
    getMean, getEma, getMin, getMax, isEmpty, isFull, isOutlier, isStable,
    refresh.
  rewrite Hc, Hs, He, Hn, Hmn, Hmx.
  destruct (Z.eqb_spec 0 N) as [|_]; [lia|].
  destruct (Z.leb_spec (N / 2) 0) as [|_]; [lia|].
  cbn. repeat split.
Qed.

(** X4.  [isStable()] is false, whatever the threshold, while fewer than
    [N / 2] samples (integer division) have been added since the last reset,
    and whenever the standard deviation is NaN. *)
Theorem isStable_needs_half_window (mem : SP) (ops : list (Op T))
  (maxStdDev : f32) :
  length (buffer_ mem) = Z.to_nat N ->
  let s := run N ops (SignalProcessor_ctor mem) in
  (Z.of_nat (length (added ops)) < N / 2 -> isStable N s maxStdDev = false) /\
  (F32.is_nan (getStdDev s) = true -> isStable N s maxStdDev = false).
Proof.
  intros Hlen s.
  pose proof (wf_ctor N N_range mem Hlen) as Hwf0.
  pose proof (wf_run N N_range ops _ Hwf0) as Hwf.
  pose proof (chrono_run ops _ [] Hwf0 (chrono_ctor mem)) as Hch.
  pose proof (chrono_length N N_range _ _ Hwf Hch) as Hc.
  fold (added ops) in Hc. fold s in Hwf, Hc.
  unfold isStable. split.
  - intros Hfew. apply andb_false_iff. left. apply Z.leb_gt.
    destruct Hwf as (_ & ? & _). lia.
  - intros Hnan. apply andb_false_iff. right.
    destruct (getStdDev s); try discriminate. reflexivity.
Qed.

(** X5.  The first sample after construction or a reset seeds the filters:
    whatever was called before, the count is 1, the EMA is [(float)value],
    the sum is [0.0f + (float)value], [getMin()] and [getMax()] return the
    sample, variance and standard deviation are 0 and nothing is an
    outlier. *)
Theorem first_sample_seeds (mem : SP) (ops : list (Op T))
  (value : T) (timeMs : Z) (probe : T) (sigmaThreshold : f32) :
  length (buffer_ mem) = Z.to_nat N ->
  added ops = [] ->
  let s := run N (ops ++ [OpAdd value timeMs]) (SignalProcessor_ctor mem) in
  getCount s = 1 /\ resident s = [value] /\
  getEma s = to_float value /\
  getSum s = F32.add F32.zero (to_float value) /\
  fst (getMin s) = value /\ fst (getMax s) = value /\
  getVariance s = F32.zero /\ getStdDev s = F32.zero /\
  isOutlier s probe sigmaThreshold = false.
Proof.
  intros Hlen Hnil s.
  pose proof (count_zero_when_nothing_added mem ops Hlen Hnil) as Hc.
  pose proof (wf_ctor N N_range mem Hlen) as Hwf0.
  pose proof (wf_run N N_range ops _ Hwf0) as Hwf.
  destruct (empty_like_run ops _ Hwf0 (empty_like_ctor mem) Hc)
    as (Hs & Hq & Hmn & Hmx & Hn & He).
  assert (Es : s = add N (run N ops (SignalProcessor_ctor mem)) value timeMs).
  { unfold s, run. now rewrite fold_left_app. }
  set (s0 := run N ops (SignalProcessor_ctor mem)) in *.
  assert (Hc1 : count_ s = 1).
  { rewrite Es, (count_after_add N N_range s0 value timeMs Hwf), Hc. lia. }
  assert (Hr : resident s = [value]).
  { rewrite Es, (resident_add_filling N N_range s0 value timeMs Hwf) by lia.
    unfold resident. now rewrite Hc. }
  assert (Hfields : ema_ s = to_float value /\
                    sum_ s = F32.add F32.zero (to_float value) /\
                    minVal_ s = value /\ maxVal_ s = value /\
                    needRecalcMinMax_ s = false).
  { rewrite Es in Hc1 |- *. unfold add, ema_next in *. cbn in *.
    rewrite Hc1, Hc, Hs.
    destruct (Z.eqb_spec 0 N) as [|_]; [lia|]. repeat split. }
  destruct Hfields as (Hema & Hsum & Hmin & Hmax & Hneed).
  unfold getCount, getEma, getSum, getMin, getMax, getStdDev, getVariance,
    isOutlier, refresh.
  rewrite Hc1, Hneed. cbn. repeat split; assumption.
Qed.

(** *** Outliers *)

(** X6.  [isOutlier()] answers false for every value and every threshold
    when fewer than two samples are resident, when the standard deviation is
    zero, and also when it is NaN: a negative variance silently switches the
    test off. *)
Theorem isOutlier_guards (s : SP) (value : T) (sigmaThreshold : f32) :
  count_ s < 2 \/ F32.eqb (getStdDev s) F32.zero = true \/
  F32.is_nan (getStdDev s) = true ->
  isOutlier s value sigmaThreshold = false.
Proof.
  unfold isOutlier. intros [Hc|[Hz|Hnan]].
  - apply Z.ltb_lt in Hc. now rewrite Hc.
  - rewrite Hz. now destruct (count_ s <? 2).
  - destruct (count_ s <? 2); [reflexivity|].
    destruct (getStdDev s); try discriminate. cbn.
    replace (F32.mul sigmaThreshold S754_nan) with S754_nan
      by (now destruct sigmaThreshold).
    unfold F32.gtb.
    match goal with |- context [SFcompare ?d S754_nan] =>
      now destruct d end.
Qed.

(** *** Coefficients *)

Lemma f32_compare_defined (x y : f32) :
  F32.is_nan x = false -> F32.is_nan y = false ->
  exists c, SFcompare x y = Some c.
Proof.
  destruct x, y; try discriminate; intros _ _; cbn; eauto.
Qed.

(** X7.  The three coefficient setters store the same clamped value: a
    coefficient inside [[0, 1]] is stored unchanged, any other number
    (the infinities included) is stored as 0 or 1, and a NaN is stored as
    it is. *)
Theorem setters_clamp (alpha : f32) (s : SP) :
  let a := alphaEma_ (setEmaAlpha alpha s) in
  alphaDerivFilter_ (setDerivativeFilterAlpha alpha s) = a /\
  alphaLowpass_ (setLowpassAlpha alpha s) = a /\
  (F32.is_nan alpha = false ->
   f32_leb F32.zero a = true /\ f32_leb a F32.one = true) /\
  (f32_leb F32.zero alpha = true -> f32_leb alpha F32.one = true ->
   a = alpha) /\
  (F32.ltb alpha F32.zero = true -> a = F32.zero) /\
  (F32.gtb alpha F32.one = true -> a = F32.one) /\
  (F32.is_nan alpha = true -> a = alpha).
Proof.
  cbn. split; [reflexivity|]. split; [reflexivity|].
  unfold clamp01, F32.ltb, F32.gtb, f32_leb.
  destruct alpha as [sg|sg| |sg m e].
  - destruct sg; repeat split; intros; first [reflexivity|discriminate].
  - destruct sg; repeat split; intros; first [reflexivity|discriminate].
  - repeat split; intros; first [reflexivity|discriminate].
  - destruct sg.
    + (* a negative finite number is below 0.0f *)
      change (SFcompare (S754_finite true m e) F32.zero) with (Some Lt).
      cbv iota.
      change (SFcompare (S754_finite true m e) F32.one) with (Some Lt).
      cbv iota.
      repeat split; intros; first [reflexivity|discriminate].
    + (* a positive finite number: compared with 1.0f *)
      change (SFcompare (S754_finite false m e) F32.zero) with (Some Gt).
      cbv iota.
      destruct (SFcompare (S754_finite false m e) F32.one) as [[]|] eqn:E1;
        cbv iota; rewrite ?E1;
        repeat split; intros; first [reflexivity|discriminate].
Qed.

(** *** Configuration *)

Lemma config_step_other (s : SP) (o : Op T) :
  is_setter o = false -> config_state (step N s o) = config_state s.
Proof.
  destruct o; try discriminate; intros _; try reflexivity;
    cbn [step getMin getMax getRange snd];
    unfold refresh, recalculateMinMax;
    destruct (needRecalcMinMax_ s); try reflexivity;
    destruct (count_ s =? 0); reflexivity.
Qed.

Lemma config_step_setter (s1 s2 : SP) (o : Op T) :
  config_state s1 = config_state s2 ->
  config_state (step N s1 o) = config_state (step N s2 o).
Proof.
  intros E.
  destruct (is_setter o) eqn:Hs.
  - unfold config_state in *. injection E as E1 E2 E3 E4 E5.
    destruct o; try discriminate; cbn; congruence.
  - now rewrite !config_step_other.
Qed.

(** X8.  Only the setters change the configuration: after any sequence of
    calls the period, the derivative-input flag and the three coefficients
    are what the setters of the sequence alone would have left; [add],
    [reset], [resetIntegral] and the min/max queries never touch them. *)
Theorem config_follows_setters (ops : list (Op T)) (s : SP) :
  config_state (run N ops s) = config_state (run N (filter is_setter ops) s).
Proof.
  assert (G : forall s1 s2, config_state s1 = config_state s2 ->
              config_state (run N ops s1)
              = config_state (run N (filter is_setter ops) s2)).
  { induction ops as [|o ops IH]; intros s1 s2 E; [exact E|].
    destruct (is_setter o) eqn:Hs.
    - rewrite filter_cons_True by (rewrite Hs; exact I).
      cbn [run fold_left]. apply IH. now apply config_step_setter.
    - rewrite filter_cons_False by (rewrite Hs; exact id).
      cbn [run fold_left]. apply IH. now rewrite config_step_other. }
  now apply G.
Qed.

(** *** [operator+=] *)

(** X9.  Samples added with [+=] carry no timestamp, so they never reach the
    rate module: however many are added, derivative, smoothed derivative,
    integral and the values [getLastValue()] and [getLastTime()] return stay
    what they were, while the buffer is filled as by [add]. *)
Theorem plus_assign_skips_rate_module (values : list T) (s : SP) :
  let s' := fold_left (plus_assign N) values s in
  rate_state s' = rate_state s /\
  getLastValue s' = getLastValue s /\ getLastTime s' = getLastTime s /\
  s' = run N (map (fun v => OpAdd v 0) values) s.
Proof.
  revert s. induction values as [|v values IH]; intros s; [repeat split|].
  cbn. destruct (IH (plus_assign N s v)) as (Hr & Hv & Ht & Hrun).
  assert (E : rate_state (plus_assign N s v) = rate_state s) by reflexivity.
  repeat split.
  - now rewrite Hr.
  - rewrite Hv. reflexivity.
  - rewrite Ht. reflexivity.
  - exact Hrun.
Qed.

(** *** [resetIntegral] *)

(** X10.  [resetIntegral()] zeroes the integral and changes no other answer;
    it also forgets the previous integrand, so the first trapezoid added
    after it runs from height 0 to the new sample, not from the last sample
    to the new one. *)
Theorem resetIntegral_restarts_from_zero (s : SP) (value : T) (timeMs : Z) :
  wf N s -> 0 < count_ s -> rate_gate s timeMs = true ->
  getIntegral (resetIntegral s) = F32.zero /\
  (forall q, is_integral_query q = false ->
             observe N q (resetIntegral s) = observe N q s) /\
  getIntegral (add N (resetIntegral s) value timeMs)
  = F32.add F32.zero
            (F32.mul (F32.mul F32.half (F32.add F32.zero (to_float value)))
                     (rate_dt s timeMs)).
Proof.
  intros Hwf Hpos Hg. split; [reflexivity|]. split.
  - intros q Hq. destruct q; try discriminate; try reflexivity;
      cbn; unfold refresh, recalculateMinMax; cbn;
      destruct (needRecalcMinMax_ s); try reflexivity;
      destruct (count_ s =? 0); reflexivity.
  - assert (Hi : integrator_ (resetIntegral s) = F32.zero) by reflexivity.
    assert (Hl : lastIntegrandValue_ (resetIntegral s) = F32.zero)
      by reflexivity.
    assert (Hd : rate_dt (resetIntegral s) timeMs = rate_dt s timeMs)
      by reflexivity.
    assert (Hc0 : count_ (resetIntegral s) = count_ s) by reflexivity.
    assert (Hg' : rate_gate (resetIntegral s) timeMs = true) by exact Hg.
    assert (Hwf' : wf N (resetIntegral s)) by exact Hwf.
    pose proof (count_after_add N N_range _ value timeMs Hwf') as Hc.
    revert Hi Hl Hd Hc0 Hg' Hc. generalize (resetIntegral s) as r.
    intros r Hi Hl Hd Hc0 Hg' Hc.
    unfold getIntegral, add in *. cbn in *. rewrite Hg', Hc, Hi, Hl, Hd, Hc0.
    destruct Hwf as (_ & ? & _).
    destruct (Z.ltb_spec 1 (Z.min (count_ s + 1) N)); [reflexivity|lia].
Qed.

(** *** Cells that hold no resident sample *)

Lemma same_but_cells_fields (s1 s2 : SP) :
  same_but_cells s1 s2 ->
  count_ s1 = count_ s2 /\ index_ s1 = index_ s2 /\
  needRecalcMinMax_ s1 = needRecalcMinMax_ s2 /\
  minVal_ s1 = minVal_ s2 /\ maxVal_ s1 = maxVal_ s2.
Proof.
  intros (E & _). unfold scalars in E.
  injection E as ? ? ? ? ? ? ? ?. repeat split; assumption.
Qed.

Lemma same_but_cells_wf (s1 s2 : SP) :
  wf N s1 -> same_but_cells s1 s2 -> wf N s2.
Proof.
  intros (Hlen & Hcnt & Hidx & Hfill) Hs.
  destruct (same_but_cells_fields s1 s2 Hs) as (Ec & Ei & _).
  destruct Hs as (_ & _ & _ & El & _).
  unfold wf. rewrite <- Ec, <- Ei, <- El. repeat split; first [exact Hfill|lia].
Qed.

Lemma same_but_cells_full (s1 s2 : SP) :
  wf N s1 -> same_but_cells s1 s2 -> count_ s1 = N -> s1 = s2.
Proof.
  intros Hwf Hs Hfull.
  pose proof (same_but_cells_wf s1 s2 Hwf Hs) as Hwf2.
  destruct (same_but_cells_fields s1 s2 Hs) as (Ec & _).
  destruct Hs as (E1 & E2 & E3 & El & Er).
  assert (Eb : buffer_ s1 = buffer_ s2).
  { unfold resident in Er. rewrite <- Ec, Hfull in Er.
    destruct Hwf as (H1 & _), Hwf2 as (H2 & _).
    now rewrite !take_ge in Er by lia. }
  unfold scalars, rate_state, config_state in *.
  destruct s1, s2. cbn in *.
  injection E1 as -> -> -> -> -> -> -> ->.
  injection E2 as -> -> -> -> -> ->.
  injection E3 as -> -> -> -> ->.
  now subst.
Qed.

Lemma add_filling_fields (s1 s2 : SP) (value : T) (timeMs : Z) :
  scalars s1 = scalars s2 -> rate_state s1 = rate_state s2 ->
  config_state s1 = config_state s2 -> count_ s1 <> N ->
  scalars (add N s1 value timeMs) = scalars (add N s2 value timeMs) /\
  rate_state (add N s1 value timeMs) = rate_state (add N s2 value timeMs) /\
  config_state (add N s1 value timeMs) = config_state (add N s2 value timeMs).
Proof.
  intros E1 E2 E3 Hne.
  unfold scalars, rate_state, config_state in *.
  destruct s1, s2. cbn in *.
  injection E1 as -> -> -> -> -> -> -> ->.
  injection E2 as -> -> -> -> -> ->.
  injection E3 as -> -> -> -> ->.
  unfold add, raw_derivative, selected_val, ema_next, rate_gate, rate_dt,
    elapsed. cbn.
  destruct (Z.eqb_spec count_1 N) as [|_]; [contradiction|].
  repeat split.
Qed.

Lemma same_but_cells_add (s1 s2 : SP) (value : T) (timeMs : Z) :
  wf N s1 -> same_but_cells s1 s2 ->
  same_but_cells (add N s1 value timeMs) (add N s2 value timeMs).
Proof.
  intros Hwf Hs.
  destruct (Z.eq_dec (count_ s1) N) as [Hfull|Hne].
  - rewrite <- (same_but_cells_full s1 s2 Hwf Hs Hfull).
    repeat split.
  - pose proof (same_but_cells_wf s1 s2 Hwf Hs) as Hwf2.
    destruct (same_but_cells_fields s1 s2 Hs) as (Ec & _).
    destruct Hs as (E1 & E2 & E3 & El & Er).
    destruct (add_filling_fields s1 s2 value timeMs E1 E2 E3 Hne)
      as (F1 & F2 & F3).
    split; [exact F1|]. split; [exact F2|]. split; [exact F3|]. split.
    + unfold add, buf_set. cbn. now rewrite !length_insert.
    + rewrite !(resident_add_filling N N_range) by
        (try assumption; destruct Hwf as (_ & ? & _); lia).
      now rewrite Er.
Qed.

Lemma scan_resident (b1 b2 : list T) (count : Z) :
  0 < count ->
  (Z.to_nat count <= length b1)%nat -> (Z.to_nat count <= length b2)%nat ->
  take (Z.to_nat count) b1 = take (Z.to_nat count) b2 ->
  scan b1 count = scan b2 count.
Proof.
  intros Hpos H1 H2 E. rewrite !scan_cells by assumption. rewrite E.
  assert (E0 : buf_at b1 0 = buf_at b2 0).
  { unfold buf_at. cbn.
    rewrite <- (lookup_take_lt b1 (Z.to_nat count)) by lia.
    rewrite <- (lookup_take_lt b2 (Z.to_nat count)) by lia.
    now rewrite E. }
  now rewrite E0.
Qed.

Lemma same_but_cells_refresh (s1 s2 : SP) :
  wf N s1 -> same_but_cells s1 s2 ->
  same_but_cells (refresh s1) (refresh s2).
Proof.
  intros Hwf Hs.
  pose proof (same_but_cells_wf s1 s2 Hwf Hs) as Hwf2.
  destruct (same_but_cells_fields s1 s2 Hs) as (Ec & Ei & En & _).
  unfold refresh. rewrite <- En.
  destruct (needRecalcMinMax_ s1); [|exact Hs].
  unfold recalculateMinMax. rewrite <- Ec.
  destruct Hs as (E1 & E2 & E3 & El & Er).
  destruct (Z.eqb_spec (count_ s1) 0) as [E0|E0].
  - unfold same_but_cells, scalars, rate_state, config_state, resident in *.
    cbn. injection E1 as ? ? ? ? ? ? ? ?.
    repeat split; try assumption; congruence.
  - assert (Escan : scan (buffer_ s1) (count_ s1)
                    = scan (buffer_ s2) (count_ s1)).
    { destruct Hwf as (H1 & Hc & _), Hwf2 as (H2 & _).
      apply scan_resident; try lia.
      unfold resident in Er. now rewrite <- Ec in Er. }
    rewrite Escan.
    unfold same_but_cells, scalars, rate_state, config_state, resident in *.
    cbn. injection E1 as ? ? ? ? ? ? ? ?.
    repeat split; try assumption; congruence.
Qed.

Lemma same_but_cells_step (s1 s2 : SP) (o : Op T) :
  wf N s1 -> same_but_cells s1 s2 ->
  same_but_cells (step N s1 o) (step N s2 o).
Proof.
  intros Hwf Hs.
  destruct o; cbn [step getMin getMax getRange snd];
    try (now apply same_but_cells_refresh).
  - now apply same_but_cells_add.
  - destruct Hs as (E1 & E2 & E3 & El & Er).
    unfold same_but_cells, scalars, rate_state, config_state, resident in *.
    cbn. injection E3 as ? ? ? ? ?. repeat split; congruence.
  - destruct Hs as (E1 & E2 & E3 & El & Er).
    unfold same_but_cells, scalars, rate_state, config_state, resident in *.
    cbn. injection E2 as ? ? ? ? ? ?. repeat split; congruence.
  - destruct Hs as (E1 & E2 & E3 & El & Er).
    unfold same_but_cells, scalars, rate_state, config_state, resident in *.
    cbn. injection E3 as ? ? ? ? ?. repeat split; congruence.
  - destruct Hs as (E1 & E2 & E3 & El & Er).
    unfold same_but_cells, scalars, rate_state, config_state, resident in *.
    cbn. injection E3 as ? ? ? ? ?. repeat split; congruence.
  - destruct Hs as (E1 & E2 & E3 & El & Er).
    unfold same_but_cells, scalars, rate_state, config_state, resident in *.
    cbn. injection E3 as ? ? ? ? ?. repeat split; congruence.
  - destruct Hs as (E1 & E2 & E3 & El & Er).
    unfold same_but_cells, scalars, rate_state, config_state, resident in *.
    cbn. injection E3 as ? ? ? ? ?. repeat split; congruence.
  - destruct Hs as (E1 & E2 & E3 & El & Er).
    unfold same_but_cells, scalars, rate_state, config_state, resident in *.
    cbn. injection E3 as ? ? ? ? ?. repeat split; congruence.
Qed.

Lemma same_but_cells_run (ops : list (Op T)) (s1 s2 : SP) :
  wf N s1 -> same_but_cells s1 s2 ->
  same_but_cells (run N ops s1) (run N ops s2).
Proof.
  revert s1 s2. induction ops as [|o ops IH]; intros s1 s2 Hwf Hs; [exact Hs|].
  cbn. apply IH; [now apply wf_step|now apply same_but_cells_step].
Qed.

Lemma same_but_cells_observe (q : Query T) (s1 s2 : SP) :
  wf N s1 -> same_but_cells s1 s2 -> is_buffer_query q = false ->
  observe N q s1 = observe N q s2.
Proof.
  intros Hwf Hs Hq.
  pose proof (same_but_cells_refresh s1 s2 Hwf Hs) as Hr.
  destruct (same_but_cells_fields _ _ Hr) as (_ & _ & _ & Emn & Emx).
  destruct Hs as (E1 & E2 & E3 & El & Er).
  unfold scalars, rate_state, config_state in *.
  injection E1 as Ec Ei Es Eq Emin Emax En Ee.
  injection E2 as Ed Edf Eint Eli Elv Elt.
  destruct q; try discriminate;
    unfold observe, getMin, getMax, getRange, getCount, getSum,
      getCoefficientOfVariation, getStdDev, getVariance, getSma, getMean,
      getEma, getDerivative, getDerivativeFiltered, getIntegral, isOutlier,
      isStable, isFull, isEmpty, getLastValue, getLastTime, getBufferSize,
      getStdDev, getVariance, getMean;
    cbn [fst];
    rewrite ?Emn, ?Emx;
    rewrite <- ?Ec, <- ?Ei, <- ?Es, <- ?Eq, <- ?Ee, <- ?Ed, <- ?Edf,
      <- ?Eint, <- ?Elv, <- ?Elt;
    reflexivity.
Qed.

(** X11.  The constructor leaves the array uninitialised, and that is
    harmless: two objects constructed in storage that differs only in the
    array answer every query but [getBuffer()] alike after every sequence
    of calls.  A cell is read only after a sample was written to it. *)
Theorem uninitialised_cells_never_read (mem1 mem2 : SP) (ops : list (Op T))
  (q : Query T) :
  length (buffer_ mem1) = Z.to_nat N -> length (buffer_ mem2) = Z.to_nat N ->
  derivativePeriodMs_ mem1 = derivativePeriodMs_ mem2 ->
  useEmaFilteredValueForDerivation_ mem1
  = useEmaFilteredValueForDerivation_ mem2 ->
  is_buffer_query q = false ->
  observe N q (run N ops (SignalProcessor_ctor mem1))
  = observe N q (run N ops (SignalProcessor_ctor mem2)).
Proof.
  intros H1 H2 Ep Ef Hq.
  pose proof (wf_ctor N N_range mem1 H1) as Hwf.
  assert (Hs : same_but_cells (SignalProcessor_ctor mem1)
                              (SignalProcessor_ctor mem2)).
  { unfold same_but_cells, scalars, rate_state, config_state, resident.
    cbn. rewrite Ep, Ef, H1, H2. repeat split. }
  apply same_but_cells_observe; [now apply wf_run| |exact Hq].
  now apply same_but_cells_run.
Qed.

(** X12.  [reset()] forgets the samples: two objects of the same capacity
    and configuration, whatever their history, answer every query but
    [getBuffer()] alike after a reset followed by the same calls. *)
Theorem reset_forgets_history (s1 s2 : SP) (ops : list (Op T)) (q : Query T) :
  length (buffer_ s1) = Z.to_nat N -> length (buffer_ s2) = Z.to_nat N ->
  config_state s1 = config_state s2 ->
  is_buffer_query q = false ->
  observe N q (run N ops (reset s1)) = observe N q (run N ops (reset s2)).
Proof.
  intros H1 H2 Ec Hq.
  assert (Hwf : wf N (reset s1)).
  { unfold wf. cbn. repeat split; first [exact H1|lia]. }
  assert (Hs : same_but_cells (reset s1) (reset s2)).
  { unfold same_but_cells, scalars, rate_state, config_state, resident in *.
    cbn. injection Ec as -> -> -> -> ->. rewrite H1, H2. repeat split. }
  apply same_but_cells_observe; [now apply wf_run| |exact Hq].
  now apply same_but_cells_run.
Qed.

(** *** Lazy rescans *)

Lemma same_but_minmax_refresh (s1 s2 : SP) :
  same_but_minmax s1 s2 -> same_but_minmax (refresh s1) s2.
Proof.
  unfold refresh, recalculateMinMax.
  destruct (needRecalcMinMax_ s1); [|trivial].
  destruct (count_ s1 =? 0); trivial.
Qed.

Lemma same_but_minmax_step (s1 s2 : SP) (o : Op T) :
  is_rescan o = false -> same_but_minmax s1 s2 ->
  same_but_minmax (step N s1 o) (step N s2 o).
Proof.
  intros Ho (Eb & E1 & E2 & E3).
  unfold same_but_minmax, rate_state, config_state in *.
  destruct s1, s2. cbn in *. subst.
  injection E1 as -> -> -> -> ->.
  injection E2 as -> -> -> -> -> ->.
  injection E3 as -> -> -> -> ->.
  destruct o; try discriminate; cbn; repeat split.
Qed.

Section Rescans.

Context `{!SampleOrder T} `{!SampleTotal T}.

Lemma ops_self_equal (ops : list (Op T)) : Forall op_self_equal ops.
Proof.
  apply Forall_forall. intros o _. destruct o; cbn; trivial.
  apply T_eqb_refl.
Qed.

Lemma is_min_unique (m1 m2 : T) (l : list T) :
  is_min m1 l -> is_min m2 l -> m1 = m2.
Proof.
  intros [H1 L1] [H2 L2]. apply T_ltb_total; [apply L2|apply L1]; assumption.
Qed.

Lemma is_max_unique (m1 m2 : T) (l : list T) :
  is_max m1 l -> is_max m2 l -> m1 = m2.
Proof.
  intros [H1 L1] [H2 L2]. apply T_gtb_total; [apply L2|apply L1]; assumption.
Qed.

(** What every reachable state satisfies, [h] being the samples added since
    the last reset. *)
Local Abbreviation reachable s h :=
  ((wf N s /\ chrono N s h /\ tracked s /\
    Forall (fun v => T_eqb v v = true) (resident s)) /\ empty_like s).

Lemma reachable_step (s : SP) (h : list T) (o : Op T) :
  reachable s h -> reachable (step N s o) (added_step h o).
Proof.
  intros [Hinv He]. split.
  - apply (minmax_step N N_range); [|exact Hinv].
    destruct o; cbn; trivial. apply T_eqb_refl.
  - apply empty_like_step; [apply Hinv|exact He].
Qed.

Lemma extrema_agree (s1 s2 : SP) (h : list T) :
  reachable s1 h -> reachable s2 h -> same_but_minmax s1 s2 ->
  minVal_ (refresh s1) = minVal_ (refresh s2) /\
  maxVal_ (refresh s1) = maxVal_ (refresh s2).
Proof.
  intros [(Hwf1 & _ & Htr1 & _) He1] [(Hwf2 & _ & Htr2 & _) He2]
         (Eb & E1 & _).
  injection E1 as Ec _ _ _ _.
  assert (Er : resident s1 = resident s2).
  { unfold resident. now rewrite Eb, Ec. }
  destruct (Z.eq_dec (count_ s1) 0) as [E0|E0].
  - destruct (He1 E0) as (_ & _ & Hm1 & HM1 & Hn1 & _).
    rewrite Ec in E0.
    destruct (He2 E0) as (_ & _ & Hm2 & HM2 & Hn2 & _).
    unfold refresh. rewrite Hn1, Hn2. split; congruence.
  - assert (Hpos1 : 0 < count_ s1) by (destruct Hwf1 as (_ & ? & _); lia).
    assert (Hpos2 : 0 < count_ s2) by lia.
    destruct (tracked_refresh N N_range s1 Hwf1 Htr1 Hpos1) as [Hmn1 Hmx1].
    destruct (tracked_refresh N N_range s2 Hwf2 Htr2 Hpos2) as [Hmn2 Hmx2].
    rewrite <- Er in Hmn2, Hmx2. split.
    + now apply (is_min_unique _ _ (resident s1)).
    + now apply (is_max_unique _ _ (resident s1)).
Qed.

Lemma rescans_run (ops : list (Op T)) (s1 s2 : SP) (h : list T) :
  reachable s1 h -> reachable s2 h -> same_but_minmax s1 s2 ->
  exists h',
    reachable (run N ops s1) h' /\
    reachable (run N (filter (fun o => negb (is_rescan o)) ops) s2) h' /\
    same_but_minmax (run N ops s1)
                    (run N (filter (fun o => negb (is_rescan o)) ops) s2).
Proof.
  revert s1 s2 h. induction ops as [|o ops IH]; intros s1 s2 h R1 R2 E.
  - exists h. split; [exact R1|]. split; [exact R2|exact E].
  - destruct (is_rescan o) eqn:Ho.
    + rewrite filter_cons_False by (rewrite Ho; cbn; auto).
      cbn [run fold_left]. apply (IH _ _ h); [|exact R2|].
      * pose proof (reachable_step s1 h o R1) as R1'.
        assert (Eh : added_step h o = h)
          by (destruct o; try discriminate; reflexivity).
        rewrite Eh in R1'. exact R1'.
      * destruct o; try discriminate;
          cbn [step getMin getMax getRange snd];
          now apply same_but_minmax_refresh.
    + rewrite filter_cons_True by (rewrite Ho; cbn; auto).
      cbn [run fold_left]. apply (IH _ _ (added_step h o)).
      * now apply reachable_step.
      * now apply reachable_step.
      * now apply same_but_minmax_step.
Qed.

(** X13.  The lazy rescan cannot be observed.  For a sample type whose
    comparisons are a total order, dropping every [getMin()], [getMax()] and
    [getRange()] call from a sequence of calls changes no answer of any
    query afterwards, [getMin()], [getMax()] and [getRange()] included. *)
Theorem rescans_are_unobservable (mem : SP) (ops : list (Op T))
  (q : Query T) :
  length (buffer_ mem) = Z.to_nat N ->
  observe N q (run N ops (SignalProcessor_ctor mem))
  = observe N q (run N (filter (fun o => negb (is_rescan o)) ops)
                     (SignalProcessor_ctor mem)).
Proof.
  intros Hlen.
  assert (R0 : reachable (SignalProcessor_ctor mem) []).
  { split; [|apply empty_like_ctor].
    split; [now apply wf_ctor|]. split; [apply chrono_ctor|].
    split; [intros _; cbn; lia|]. apply Forall_nil. constructor. }
  destruct (rescans_run ops _ _ [] R0 R0) as (h' & R1 & R2 & E).
  { repeat split. }
  destruct (extrema_agree _ _ h' R1 R2 E) as [Emn Emx].
  destruct E as (Eb & E1 & E2 & E3).
  unfold rate_state, config_state in *.
  injection E1 as Ec Ei Es Eq Ee.
  injection E2 as Ed Edf Eint Eli Elv Elt.
  destruct q;
    unfold observe, getMin, getMax, getRange, getCount, getSum,
      getCoefficientOfVariation, getStdDev, getVariance, getSma, getMean,
      getEma, getDerivative, getDerivativeFiltered, getIntegral, isOutlier,
      isStable, isFull, isEmpty, getLastValue, getLastTime, getBufferSize,
      getBuffer, getStdDev, getVariance, getMean;
    cbn [fst];
    rewrite ?Emn, ?Emx;
    rewrite <- ?Eb, <- ?Ec, <- ?Ei, <- ?Es, <- ?Eq, <- ?Ee, <- ?Ed, <- ?Edf,
      <- ?Eint, <- ?Elv, <- ?Elt;
    reflexivity.
Qed.

End Rescans.

(** *** The first timestamped sample *)

(** X15.  From the idle state of the rate module (last timestamp 0, last
    value 0, as after construction or [reset()]) a sample stamped [timeMs]
    passes the guard exactly when [timeMs] exceeds the period, and its
    derivative is then taken against the value 0 at time 0:
    [(float)(val - 0) / ((float)timeMs * 0.001f)]. *)
Theorem first_timestamp_measures_from_zero (s : SP) (value : T)
  (timeMs : Z) :
  lastTimeMs_ s = 0 -> lastValue_ s = T_zero ->
  0 < timeMs < 4294967296 -> 0 <= derivativePeriodMs_ s ->
  let s' := add N s value timeMs in
  rate_gate s timeMs = (derivativePeriodMs_ s <? timeMs) /\
  (derivativePeriodMs_ s < timeMs ->
   getLastTime s' = timeMs /\
   getDerivative s'
   = F32.div (int_minus (selected_val s (ema_ s') value) T_zero)
             (F32.mul (F32.of_Z timeMs) F32.c0_001)) /\
  (timeMs <= derivativePeriodMs_ s -> rate_state s' = rate_state s).
Proof.
  intros Ht Hv Hrange Hp s'.
  assert (He : elapsed s timeMs = timeMs).
  { unfold elapsed, u32. rewrite Ht, Z.sub_0_r. apply Z.mod_small. lia. }
  assert (Hg : rate_gate s timeMs = (derivativePeriodMs_ s <? timeMs)).
  { unfold rate_gate. rewrite He.
    destruct (Z.ltb_spec 0 timeMs); [reflexivity|lia]. }
  split; [exact Hg|]. split.
  - intros Hopen. apply Z.ltb_lt in Hopen. rewrite Hopen in Hg.
    subst s'. unfold getLastTime, getDerivative, add, raw_derivative, rate_dt.
    cbn. rewrite Hg, He, Hv.
    destruct (Z.ltb_spec 0 timeMs); [split; reflexivity|lia].
  - intros Hclosed. apply Z.ltb_ge in Hclosed. rewrite Hclosed in Hg.
    subst s'. unfold rate_state, add. cbn. now rewrite Hg.
Qed.

End MoreProperties.

(** *** [int16_t] samples and the [int] intermediate *)

Lemma forall_from_spec (P : Z -> bool) (n : nat) (from z : Z) :
  forall_from n from P = true ->
  from <= z < from + Z.of_nat n -> P z = true.
Proof.
  revert from. induction n as [|n IH]; intros from Hall Hz; [lia|].
  cbn [forall_from] in Hall. apply andb_true_iff in Hall as [Hhere Hrest].
  destruct (Z.eq_dec z from) as [->|Hne]; [exact Hhere|].
  apply (IH (from + 1)); [exact Hrest|lia].
Qed.

(** Every difference of two [int16_t] values converts to [float] exactly,
    checked value by value. *)
Lemma int16_differences_convert :
  forall_from (Z.to_nat 131071) (-65535) converts_exactly = true.
Proof. vm_compute. reflexivity. Qed.

Lemma converts_exactly_small (z : Z) :
  -65535 <= z <= 65535 ->
  F32.to_int (F32.of_Z z) = z /\
  (F32.to_Q (F32.of_Z z) == inject_Z z)%Q.
Proof.
  intros Hz.
  pose proof (forall_from_spec converts_exactly (Z.to_nat 131071) (-65535) z
                int16_differences_convert ltac:(lia)) as Hall.
  unfold converts_exactly in Hall.
  apply andb_true_iff in Hall as [Hall Hq].
  apply andb_true_iff in Hall as [Hi _].
  split; [now apply Z.eqb_eq|now apply Qeq_bool_iff].
Qed.

(** X14.  With [T = int16_t] and the raw sample selected as derivative
    input, the [int] intermediate of [add] loses nothing: after a call that
    passes the guard [getLastValue()] is the sample, and the numerator of
    the derivative is the float that denotes [value - lastValue_]
    exactly. *)
Theorem int16_raw_input_is_lossless (N : Z) (s : SignalProcessor int16_t)
  (value : int16_t) (timeMs : Z) :
  -32768 <= value <= 32767 ->
  -32768 <= lastValue_ s <= 32767 ->
  useEmaFilteredValueForDerivation_ s = false ->
  rate_gate s timeMs = true ->
  let s' := add N s value timeMs in
  getLastValue s' = value /\
  getDerivative s'
  = F32.div (F32.of_Z (value - lastValue_ s)) (rate_dt s timeMs) /\
  (F32.to_Q (F32.of_Z (value - lastValue_ s))
   == inject_Z (value - lastValue_ s))%Q.
Proof.
  intros Hv Hl Hflag Hg s'.
  destruct (converts_exactly_small value ltac:(lia)) as [Hconv _].
  destruct (converts_exactly_small (value - lastValue_ s) ltac:(lia))
    as [_ Hexact].
  assert (Hsel : selected_val s (ema_ s') value = value).
  { unfold selected_val. rewrite Hflag. exact Hconv. }
  subst s'. unfold getLastValue, getDerivative, add, raw_derivative in *.
  cbn in *. rewrite Hg, Hsel. repeat split.
  - unfold wrap16. rewrite Z.mod_small by lia. lia.
  - unfold wrap32. rewrite Z.mod_small by lia.
    now replace (value - lastValue_ s + 2147483648 - 2147483648)
      with (value - lastValue_ s) by lia.
  - exact Hexact.
Qed.

(** *** [getRange()] on [int16_t] *)

Lemma added_in_int16 (ops : list (Op int16_t)) (h : list int16_t) :
  Forall op_in_int16 ops ->
  Forall (fun v => -32768 <= v <= 32767) h ->
  Forall (fun v => -32768 <= v <= 32767) (fold_left added_step ops h).
Proof.
  revert h. induction ops as [|o ops IH]; intros h Hops Hh; [exact Hh|].
  apply Forall_cons in Hops as [Ho Hops]. cbn. apply IH; [exact Hops|].
  destruct o; cbn; try exact Hh.
  - apply Forall_app. split; [exact Hh|]. apply Forall_cons. split; [exact Ho|].
    apply Forall_nil. constructor.
  - apply Forall_nil. constructor.
Qed.

(** X16.  With [T = int16_t] and every sample inside the range of the type,
    [getRange()] is exact: it is the float that denotes the maximum minus
    the minimum of the last [N] samples, and it is not negative. *)
Theorem int16_range_is_exact (N : Z) (mem : SignalProcessor int16_t)
  (ops : list (Op int16_t)) :
  2 <= N <= 65535 ->
  length (buffer_ mem) = Z.to_nat N ->
  Forall op_in_int16 ops ->
  added ops <> [] ->
  let s := run N ops (SignalProcessor_ctor mem) in
  let window := lastn (Z.to_nat N) (added ops) in
  exists m M : Z,
    is_min m window /\ is_max M window /\ m <= M /\
    fst (getRange s) = F32.of_Z (M - m) /\
    (F32.to_Q (fst (getRange s)) == inject_Z (M - m))%Q.
Proof.
  intros HN Hlen Hops Hne s window.
  assert (Hself : Forall (op_self_equal (T:=int16_t)) ops).
  { apply Forall_forall. intros o _. destruct o; cbn; trivial.
    apply Z.eqb_refl. }
  destruct (minmax_run N HN ops (SignalProcessor_ctor mem) [] Hself)
    as (Hwf & Hch & Htr & _).
  { split; [now apply wf_ctor|]. split; [|split].
    - split; [reflexivity|]. cbn. lia.
    - intros _. cbn. lia.
    - apply Forall_nil. constructor. }
  fold (added ops) in Hch. fold s in Hwf, Hch, Htr.
  pose proof (resident_is_window N HN s _ Hwf Hch) as Hperm.
  assert (Hpos : 0 < count_ s).
  { pose proof (chrono_length N HN s _ Hwf Hch) as Hlh.
    destruct (added ops) as [|x l]; [contradiction|]. cbn in Hlh.
    destruct Hwf as (_ & ? & _). lia. }
  destruct (tracked_refresh N HN s Hwf Htr Hpos) as [Hmn Hmx].
  apply (is_least_perm _ _ _ _ Hperm) in Hmn.
  apply (is_least_perm _ _ _ _ Hperm) in Hmx.
  fold window in Hmn, Hmx.
  set (m := minVal_ (refresh s)) in *. set (M := maxVal_ (refresh s)) in *.
  assert (Hin : Forall (fun v => -32768 <= v <= 32767) window).
  { unfold window, lastn. apply Forall_drop.
    apply added_in_int16; [exact Hops|]. apply Forall_nil. constructor. }
  rewrite Forall_forall in Hin.
  pose proof (Hin m (proj1 Hmn)) as Hm. pose proof (Hin M (proj1 Hmx)) as HM.
  assert (Hle : m <= M).
  { apply int16_is_max in Hmx. apply Hmx. apply Hmn. }
  assert (Hr : fst (getRange s) = F32.of_Z (M - m)).
  { unfold getRange. cbn [fst minus_to_float int16_sample]. fold m M.
    unfold wrap32. rewrite Z.mod_small by lia. f_equal. lia. }
  exists m, M. split; [exact Hmn|]. split; [exact Hmx|]. split; [exact Hle|].
  split; [exact Hr|]. rewrite Hr.
  apply converts_exactly_small. lia.
Qed.

(** *** The further properties on concrete objects *)

Lemma count_and_index_follow_adds_witness :
  2 <= 5 <= 65535 /\
  length (buffer_ (zeroed (T:=int16_t) 5)) = Z.to_nat 5 /\
  let s := run 5 ops_mixed (SignalProcessor_ctor (zeroed 5)) in
  let n := Z.of_nat (length (added ops_mixed)) in
  getCount s = Z.min n 5 /\
  index_ s = n mod 5 /\
  isFull 5 s = (5 <=? n) /\
  isEmpty s = (n =? 0).
Proof.
  assert (HN : 2 <= 5 <= 65535) by lia.
  assert (Hlen : length (buffer_ (zeroed (T:=int16_t) 5)) = Z.to_nat 5)
    by reflexivity.
  exact (conj HN (conj Hlen
    (count_and_index_follow_adds 5 HN (zeroed 5) ops_mixed Hlen))).
Defined.

Lemma buffer_layout_witness :
  2 <= 5 <= 65535 /\
  length (buffer_ (zeroed (T:=int16_t) 5)) = Z.to_nat 5 /\
  let s := run 5 ops_mixed (SignalProcessor_ctor (zeroed 5)) in
  let n := length (added ops_mixed) in
  (Z.of_nat n < 5 -> take n (getBuffer s) = added ops_mixed) /\
  (5 <= Z.of_nat n ->
   drop (Z.to_nat (index_ s)) (getBuffer s)
   ++ take (Z.to_nat (index_ s)) (getBuffer s)
   = lastn (Z.to_nat 5) (added ops_mixed)).
Proof.
  assert (HN : 2 <= 5 <= 65535) by lia.
  assert (Hlen : length (buffer_ (zeroed (T:=int16_t) 5)) = Z.to_nat 5)
    by reflexivity.
  exact (conj HN (conj Hlen (buffer_layout 5 HN (zeroed 5) ops_mixed Hlen))).
Defined.

(** The array of that run: the oldest resident sample, 4, is at [index_]. *)
Example layout_evaluated :
  let s := run 5 ops_mixed (fresh 5) in
  getBuffer s = [6; 0; 5; 4; 5] /\ index_ s = 3 /\
  lastn 5 (added ops_mixed) = [4; 5; 6; 0; 5].
Proof. vm_compute. repeat split. Qed.

Lemma empty_processor_statistics_witness :
  2 <= 5 <= 65535 /\
  length (buffer_ (zeroed (T:=int16_t) 5)) = Z.to_nat 5 /\
  added ops_then_reset = [] /\
  let s := run 5 ops_then_reset (SignalProcessor_ctor (zeroed 5)) in
  getCount s = 0 /\ getSum s = F32.zero /\ getMean s = F32.zero /\
  getVariance s = F32.zero /\ getStdDev s = F32.zero /\
  getCoefficientOfVariation s = F32.zero /\ getEma s = F32.zero /\
  fst (getMin s) = T_zero /\ fst (getMax s) = T_zero /\
  isEmpty s = true /\ isFull 5 s = false /\
  isOutlier s 100 (F32.of_Z 3) = false /\
  isStable 5 s F32.one = false.
Proof.
  assert (HN : 2 <= 5 <= 65535) by lia.
  assert (Hlen : length (buffer_ (zeroed (T:=int16_t) 5)) = Z.to_nat 5)
    by reflexivity.
  assert (Hnil : added ops_then_reset = []) by reflexivity.
  exact (conj HN (conj Hlen (conj Hnil
    (empty_processor_statistics 5 HN (zeroed 5) ops_then_reset
       100 (F32.of_Z 3) F32.one Hlen Hnil)))).
Defined.

Lemma isStable_needs_half_window_witness :
  2 <= 5 <= 65535 /\
  length (buffer_ (zeroed (T:=int16_t) 5)) = Z.to_nat 5 /\
  let s := run 5 ops_constant (SignalProcessor_ctor (zeroed 5)) in
  (Z.of_nat (length (added ops_constant)) < 5 / 2 ->
   isStable 5 s F32.one = false) /\
  (F32.is_nan (getStdDev s) = true -> isStable 5 s F32.one = false).
Proof.
  assert (HN : 2 <= 5 <= 65535) by lia.
  assert (Hlen : length (buffer_ (zeroed (T:=int16_t) 5)) = Z.to_nat 5)
    by reflexivity.
  exact (conj HN (conj Hlen
    (isStable_needs_half_window 5 HN (zeroed 5) ops_constant F32.one Hlen))).
Defined.

Lemma first_sample_seeds_witness :
  2 <= 5 <= 65535 /\
  length (buffer_ (zeroed (T:=int16_t) 5)) = Z.to_nat 5 /\
  added ops_then_reset = [] /\
  let s := run 5 (ops_then_reset ++ [OpAdd 42 0])
               (SignalProcessor_ctor (zeroed 5)) in
  getCount s = 1 /\ resident s = [42] /\
  getEma s = to_float (42 : int16_t) /\
  getSum s = F32.add F32.zero (to_float (42 : int16_t)) /\
  fst (getMin s) = 42 /\ fst (getMax s) = 42 /\
  getVariance s = F32.zero /\ getStdDev s = F32.zero /\
  isOutlier s 100 (F32.of_Z 3) = false.
Proof.
  assert (HN : 2 <= 5 <= 65535) by lia.
  assert (Hlen : length (buffer_ (zeroed (T:=int16_t) 5)) = Z.to_nat 5)
    by reflexivity.
  assert (Hnil : added ops_then_reset = []) by reflexivity.
  exact (conj HN (conj Hlen (conj Hnil
    (first_sample_seeds 5 HN (zeroed 5) ops_then_reset 42 0 100 (F32.of_Z 3)
                        Hlen Hnil)))).
Defined.

Lemma isOutlier_guards_witness :
  let s := run 5 ops_constant (fresh 5) in
  (count_ s < 2 \/ F32.eqb (getStdDev s) F32.zero = true \/
   F32.is_nan (getStdDev s) = true) /\
  isOutlier s 30000 (F32.of_Z 3) = false.
Proof.
  assert (Hg : count_ (run 5 ops_constant (fresh 5)) < 2 \/
               F32.eqb (getStdDev (run 5 ops_constant (fresh 5))) F32.zero
               = true \/
               F32.is_nan (getStdDev (run 5 ops_constant (fresh 5))) = true).
  { right. right. vm_compute. reflexivity. }
  exact (conj Hg
    (isOutlier_guards (run 5 ops_constant (fresh 5)) 30000 (F32.of_Z 3) Hg)).
Defined.

Lemma resetIntegral_restarts_from_zero_witness :
  let s := run 4 ops_at_5s (fresh 4) in
  2 <= 4 <= 65535 /\ wf 4 s /\ 0 < count_ s /\ rate_gate s 6000 = true /\
  getIntegral (resetIntegral s) = F32.zero /\
  (forall q, is_integral_query q = false ->
             observe 4 q (resetIntegral s) = observe 4 q s) /\
  getIntegral (add 4 (resetIntegral s) 3 6000)
  = F32.add F32.zero
            (F32.mul (F32.mul F32.half
                              (F32.add F32.zero (to_float (3 : int16_t))))
                     (rate_dt s 6000)).
Proof.
  assert (HN : 2 <= 4 <= 65535) by lia.
  assert (Hwf : wf 4 (run 4 ops_at_5s (fresh 4))).
  { apply wf_run, wf_ctor; [exact HN|exact HN|reflexivity]. }
  assert (Hpos : 0 < count_ (run 4 ops_at_5s (fresh 4)))
    by (vm_compute; reflexivity).
  assert (Hg : rate_gate (run 4 ops_at_5s (fresh 4)) 6000 = true)
    by (vm_compute; reflexivity).
  exact (conj HN (conj Hwf (conj Hpos (conj Hg
    (resetIntegral_restarts_from_zero 4 HN (run 4 ops_at_5s (fresh 4))
                                      3 6000 Hwf Hpos Hg))))).
Defined.

Lemma uninitialised_cells_never_read_witness :
  2 <= 5 <= 65535 /\
  length (buffer_ (zeroed (T:=int16_t) 5)) = Z.to_nat 5 /\
  length (buffer_ dirty_storage) = Z.to_nat 5 /\
  derivativePeriodMs_ (zeroed (T:=int16_t) 5)
  = derivativePeriodMs_ dirty_storage /\
  useEmaFilteredValueForDerivation_ (zeroed (T:=int16_t) 5)
  = useEmaFilteredValueForDerivation_ dirty_storage /\
  is_buffer_query (T:=int16_t) QMin = false /\
  observe 5 QMin (run 5 ops_mixed (SignalProcessor_ctor (zeroed 5)))
  = observe 5 QMin (run 5 ops_mixed (SignalProcessor_ctor dirty_storage)).
Proof.
  assert (HN : 2 <= 5 <= 65535) by lia.
  assert (H1 : length (buffer_ (zeroed (T:=int16_t) 5)) = Z.to_nat 5)
    by reflexivity.
  assert (H2 : length (buffer_ dirty_storage) = Z.to_nat 5) by reflexivity.
  assert (Hp : derivativePeriodMs_ (zeroed (T:=int16_t) 5)
               = derivativePeriodMs_ dirty_storage) by reflexivity.
  assert (Hf : useEmaFilteredValueForDerivation_ (zeroed (T:=int16_t) 5)
               = useEmaFilteredValueForDerivation_ dirty_storage)
    by reflexivity.
  assert (Hq : is_buffer_query (T:=int16_t) QMin = false) by reflexivity.
  exact (conj HN (conj H1 (conj H2 (conj Hp (conj Hf (conj Hq
    (uninitialised_cells_never_read 5 HN (zeroed 5) dirty_storage ops_mixed
                                    QMin H1 H2 Hp Hf Hq))))))).
Defined.

Lemma reset_forgets_history_witness :
  let s1 := run 5 ops_mixed (fresh 5) in
  let s2 := fresh (T:=int16_t) 5 in
  2 <= 5 <= 65535 /\
  length (buffer_ s1) = Z.to_nat 5 /\ length (buffer_ s2) = Z.to_nat 5 /\
  config_state s1 = config_state s2 /\
  is_buffer_query (T:=int16_t) QMean = false /\
  observe 5 QMean (run 5 ops_1_to_6 (reset s1))
  = observe 5 QMean (run 5 ops_1_to_6 (reset s2)).
Proof.
  assert (HN : 2 <= 5 <= 65535) by lia.
  assert (H1 : length (buffer_ (run 5 ops_mixed (fresh 5))) = Z.to_nat 5)
    by reflexivity.
  assert (H2 : length (buffer_ (fresh (T:=int16_t) 5)) = Z.to_nat 5)
    by reflexivity.
  assert (Hc : config_state (run 5 ops_mixed (fresh 5))
               = config_state (fresh (T:=int16_t) 5)) by reflexivity.
  assert (Hq : is_buffer_query (T:=int16_t) QMean = false) by reflexivity.
  exact (conj HN (conj H1 (conj H2 (conj Hc (conj Hq
    (reset_forgets_history 5 HN (run 5 ops_mixed (fresh 5)) (fresh 5)
                           ops_1_to_6 QMean H1 H2 Hc Hq)))))).
Defined.

Lemma rescans_are_unobservable_witness :
  2 <= 5 <= 65535 /\
  length (buffer_ (zeroed (T:=int16_t) 5)) = Z.to_nat 5 /\
  observe 5 QMin (run 5 ops_mixed (SignalProcessor_ctor (zeroed 5)))
  = observe 5 QMin
      (run 5 (filter (fun o => negb (is_rescan o)) ops_mixed)
           (SignalProcessor_ctor (zeroed 5))).
Proof.
  assert (HN : 2 <= 5 <= 65535) by lia.
  assert (Hlen : length (buffer_ (zeroed (T:=int16_t) 5)) = Z.to_nat 5)
    by reflexivity.
  exact (conj HN (conj Hlen
    (rescans_are_unobservable 5 HN (zeroed 5) ops_mixed QMin Hlen))).
Defined.

Lemma int16_raw_input_is_lossless_witness :
  let s := run 4 ops_at_5s (fresh 4) in
  -32768 <= 3 <= 32767 /\
  -32768 <= lastValue_ s <= 32767 /\
  useEmaFilteredValueForDerivation_ s = false /\
  rate_gate s 6000 = true /\
  getLastValue (add 4 s 3 6000) = 3 /\
  getDerivative (add 4 s 3 6000)
  = F32.div (F32.of_Z (3 - lastValue_ s)) (rate_dt s 6000) /\
  (F32.to_Q (F32.of_Z (3 - lastValue_ s)) == inject_Z (3 - lastValue_ s))%Q.
Proof.
  assert (Hv : -32768 <= 3 <= 32767) by lia.
  assert (Hl : -32768 <= lastValue_ (run 4 ops_at_5s (fresh 4)) <= 32767)
    by (vm_compute; split; discriminate).
  assert (Hf : useEmaFilteredValueForDerivation_ (run 4 ops_at_5s (fresh 4))
               = false) by reflexivity.
  assert (Hg : rate_gate (run 4 ops_at_5s (fresh 4)) 6000 = true)
    by (vm_compute; reflexivity).
  exact (conj Hv (conj Hl (conj Hf (conj Hg
    (int16_raw_input_is_lossless 4 (run 4 ops_at_5s (fresh 4)) 3 6000
                                 Hv Hl Hf Hg))))).
Defined.

Lemma first_timestamp_measures_from_zero_witness :
  let s := fresh (T:=int16_t) 4 in
  lastTimeMs_ s = 0 /\ lastValue_ s = T_zero /\
  0 < 1000 < 4294967296 /\ 0 <= derivativePeriodMs_ s /\
  rate_gate s 1000 = (derivativePeriodMs_ s <? 1000) /\
  (derivativePeriodMs_ s < 1000 ->
   getLastTime (add 4 s 3 1000) = 1000 /\
   getDerivative (add 4 s 3 1000)
   = F32.div (int_minus (selected_val s (ema_ (add 4 s 3 1000)) 3) T_zero)
             (F32.mul (F32.of_Z 1000) F32.c0_001)) /\
  (1000 <= derivativePeriodMs_ s ->
   rate_state (add 4 s 3 1000) = rate_state s).
Proof.
  assert (Ht : lastTimeMs_ (fresh (T:=int16_t) 4) = 0) by reflexivity.
  assert (Hv : lastValue_ (fresh (T:=int16_t) 4) = T_zero) by reflexivity.
  assert (Hr : 0 < 1000 < 4294967296) by lia.
  assert (Hp : 0 <= derivativePeriodMs_ (fresh (T:=int16_t) 4))
    by (vm_compute; discriminate).
  exact (conj Ht (conj Hv (conj Hr (conj Hp
    (first_timestamp_measures_from_zero 4 (fresh 4) 3 1000 Ht Hv Hr Hp))))).
Defined.

Lemma int16_range_is_exact_witness :
  2 <= 5 <= 65535 /\
  length (buffer_ (zeroed (T:=int16_t) 5)) = Z.to_nat 5 /\
  Forall op_in_int16 ops_mixed /\
  added ops_mixed <> [] /\
  let s := run 5 ops_mixed (SignalProcessor_ctor (zeroed 5)) in
  let window := lastn (Z.to_nat 5) (added ops_mixed) in
  exists m M : Z,
    is_min m window /\ is_max M window /\ m <= M /\
    fst (getRange s) = F32.of_Z (M - m) /\
    (F32.to_Q (fst (getRange s)) == inject_Z (M - m))%Q.
Proof.
  assert (HN : 2 <= 5 <= 65535) by lia.
  assert (Hlen : length (buffer_ (zeroed (T:=int16_t) 5)) = Z.to_nat 5)
    by reflexivity.
  assert (Hops : Forall op_in_int16 ops_mixed)
    by (repeat constructor; cbn; lia).
  assert (Hne : added ops_mixed <> []) by (vm_compute; discriminate).
  exact (conj HN (conj Hlen (conj Hops (conj Hne
    (int16_range_is_exact 5 (zeroed 5) ops_mixed HN Hlen Hops Hne))))).
Defined.

(** The range of that run, evaluated: 6 - 0. *)
Example range_evaluated :
  fst (getRange (run 5 ops_mixed (fresh 5))) = F32.of_Z 6.
Proof. vm_compute. reflexivity. Qed.
